(** * TradePanel: session lifecycle and order submission

    A shallow embedding of the trading panel component (the [TradePanel]
    function component): its amount validator, its error classifier, the
    sizing arithmetic of [openPosition], and the effectful session code
    ([initializeDrift], the three effects, [openPosition]).

    JavaScript numbers are IEEE-754 binary64 values; they are modelled with
    the [spec_float] reference model of the core library, instantiated at
    precision 53 and maximal exponent 1024.  JavaScript strings are modelled
    as [string], holding the UTF-8 encoding of the text. *)

From Stdlib Require Import ZArith Bool List String Ascii Lia.
From Stdlib Require Import DecimalString.
From Stdlib Require Import SpecFloat.
Import ListNotations.

Local Open Scope string_scope.
Local Open Scope Z_scope.

(** ** JavaScript numbers *)

Module JsNumber.

Definition prec : Z := 53.
Definition emax : Z := 1024.

Definition number : Type := spec_float.

Definition NaN : number := S754_nan.

(** An integer literal of the source ([0], [100], [1_000_000], ...). *)
Definition of_Z (z : Z) : number := binary_normalize prec emax z 0 false.

(** The binary64 value nearest to the rational [(-1)^neg * n / d]
    (ties to even), for [0 <= n] and [0 < d]. *)
Definition of_ratio (neg : bool) (n d : Z) : number :=
  match n, d with
  | Z0, _ => S754_zero neg
  | Zpos pn, Zpos pd =>
      SFdiv prec emax (S754_finite neg pn 0) (S754_finite false pd 0)
  | _, _ => S754_nan
  end.

(** [a * b] *)
Definition mul (a b : number) : number := SFmul prec emax a b.

(** [a < b] *)
Definition lt (a b : number) : bool := SFltb a b.

(** [a > b] *)
Definition gt (a b : number) : bool := SFltb b a.

(** [isNaN(a)] *)
Definition isNaN (a : number) : bool :=
  match a with S754_nan => true | _ => false end.

(** [Math.floor(a)]: the largest integral value not above [a]; NaN, the
    infinities and both zeros are returned unchanged. *)
Definition floor (a : number) : number :=
  match a with
  | S754_finite s m e =>
      if 0 <=? e then a
      else
        let z := (cond_Zopp s (Zpos m)) / 2 ^ (- e) in
        if z =? 0 then S754_zero s else binary_normalize prec emax z 0 false
  | _ => a
  end.

End JsNumber.

(** ** JavaScript strings *)

Module JsString.

Definition code (c : ascii) : Z := Z.of_N (N_of_ascii c).

Definition is_digit (c : ascii) : bool := (48 <=? code c) && (code c <=? 57).

Definition digit_value (c : ascii) : Z := code c - 48.

(** [s.includes(pat)] *)
Fixpoint includes (s pat : string) : bool :=
  if prefix pat s then true
  else match s with
       | EmptyString => false
       | String _ s' => includes s' pat
       end.

(** [s.length]: the number of UTF-16 code units of the text whose UTF-8
    encoding is [s].  A continuation byte counts for nothing, the lead
    byte of a four-byte sequence for a surrogate pair. *)
Fixpoint length16 (s : string) : Z :=
  match s with
  | EmptyString => 0
  | String c s' =>
      (if code c <? 128 then 1
       else if code c <? 192 then 0
       else if code c <? 240 then 1
       else 2) + length16 s'
  end.

(** One-byte white space: TAB, LF, VT, FF, CR, space. *)
Definition ws1 (a : ascii) : bool :=
  ((9 <=? code a) && (code a <=? 13)) || (code a =? 32).

(** Two-byte white space: U+00A0. *)
Definition ws2 (a b : ascii) : bool :=
  (code a =? 194) && (code b =? 160).

(** Three-byte white space and line terminators: U+1680, U+2000..U+200A,
    U+2028, U+2029, U+202F, U+205F, U+3000, U+FEFF. *)
Definition ws3 (a b c : ascii) : bool :=
  let x := code a in let y := code b in let z := code c in
  ((x =? 225) && (y =? 154) && (z =? 128))
  || ((x =? 226) && (y =? 128)
      && (((128 <=? z) && (z <=? 138)) || (z =? 168) || (z =? 169) || (z =? 175)))
  || ((x =? 226) && (y =? 129) && (z =? 159))
  || ((x =? 227) && (y =? 128) && (z =? 128))
  || ((x =? 239) && (y =? 187) && (z =? 191)).

(** Removal of leading white space, as [trim] and [parseFloat] do it. *)
Fixpoint trimStart (s : string) : string :=
  match s with
  | EmptyString => s
  | String a r1 =>
      if ws1 a then trimStart r1
      else
        match r1 with
        | EmptyString => s
        | String b r2 =>
            if ws2 a b then trimStart r2
            else
              match r2 with
              | EmptyString => s
              | String c r3 => if ws3 a b c then trimStart r3 else s
              end
        end
  end.

(** [s.trim() === ''] *)
Definition trim_is_empty (s : string) : bool :=
  match trimStart s with EmptyString => true | _ => false end.

(** The text after the first ["."], if there is one. *)
Fixpoint after_dot (s : string) : option string :=
  match s with
  | EmptyString => None
  | String c s' => if (c =? ".")%char then Some s' else after_dot s'
  end.

(** The text before the first ["."] (all of it when there is none). *)
Fixpoint before_dot (s : string) : string :=
  match s with
  | EmptyString => EmptyString
  | String c s' => if (c =? ".")%char then EmptyString else String c (before_dot s')
  end.

(** [s.split('.')[1] || ''] *)
Definition split_dot_1 (s : string) : string :=
  match after_dot s with
  | Some r => before_dot r
  | None => EmptyString
  end.

(** The decimal rendering of an integer, as a template literal gives it. *)
Definition of_Z (z : Z) : string := NilZero.string_of_int (Z.to_int z).

End JsString.

(** ** [parseFloat] *)

Module JsParse.
Import JsNumber JsString.

(** The longest run of decimal digits at the head of [s]: the number read
    (continuing from [acc]), how many digits were read (continuing from
    [cnt]), and what follows. *)
Fixpoint read_digits (acc cnt : Z) (s : string) : Z * Z * string :=
  match s with
  | EmptyString => (acc, cnt, s)
  | String c s' =>
      if is_digit c then read_digits (acc * 10 + digit_value c) (cnt + 1) s'
      else (acc, cnt, s)
  end.

(** An optional sign at the head of [s]. *)
Definition read_sign (s : string) : bool * string :=
  match s with
  | String c r =>
      if (c =? "+")%char then (false, r)
      else if (c =? "-")%char then (true, r)
      else (false, s)
  | EmptyString => (false, s)
  end.

(** The value of an exponent part ([e] or [E], an optional sign, digits)
    at the head of [s]; [0] when there is none. *)
Definition read_exponent (s : string) : Z :=
  match s with
  | String c r =>
      if (c =? "e")%char || (c =? "E")%char then
        let '(neg, r') := read_sign r in
        let '(v, n, _) := read_digits 0 0 r' in
        if n =? 0 then 0 else if neg then - v else v
      else 0
  | EmptyString => 0
  end.

(** [parseFloat(input)]: leading white space is skipped, the longest
    prefix that is a decimal literal is read and everything after it is
    ignored; the result is NaN when no prefix is a literal. *)
Definition parseFloat (input : string) : number :=
  let '(neg, u) := read_sign (trimStart input) in
  if prefix "Infinity" u then S754_infinity neg
  else
    let '(ip, ni, r1) := read_digits 0 0 u in
    let '(fp, nf, r2) :=
      match r1 with
      | String c r => if (c =? ".")%char then read_digits ip 0 r else (ip, 0, r1)
      | EmptyString => (ip, 0, r1)
      end in
    if ni + nf =? 0 then NaN
    else
      let k := read_exponent r2 - nf in
      if 0 <=? k then of_ratio neg (fp * 10 ^ k) 1
      else of_ratio neg fp (10 ^ (- k)).

End JsParse.

(** ** The amount validator *)

Import JsNumber JsString JsParse.

Definition MAX_POSITION_SIZE_USDC : Z := 100000.
Definition MIN_POSITION_SIZE_USDC : Z := 1.

Record Validation : Type := { valid : bool; error : option string }.

Definition reject (reason : string) : Validation :=
  {| valid := false; error := Some reason |}.

Definition validateAmount (value : string) : Validation :=
  if (value =? EmptyString)%string || trim_is_empty value then
    reject "Amount required"
  else if includes value "e" || includes value "E" then
    reject "Scientific notation not allowed"
  else
    let num := parseFloat value in
    if isNaN num then
      reject "Invalid number"
    else if lt num (JsNumber.of_Z 0) then
      reject "Amount must be positive"
    else if lt num (JsNumber.of_Z MIN_POSITION_SIZE_USDC) then
      reject ("Minimum " ++ JsString.of_Z MIN_POSITION_SIZE_USDC ++ " USDC")
    else if gt num (JsNumber.of_Z MAX_POSITION_SIZE_USDC) then
      reject ("Maximum " ++ JsString.of_Z MAX_POSITION_SIZE_USDC ++ " USDC")
    else
      let decimalPlaces := length16 (split_dot_1 value) in
      if decimalPlaces >? 2 then
        reject "Maximum 2 decimal places"
      else {| valid := true; error := None |}.

(** ** The error classifier *)

(** A thrown value: an [Error] instance with its [message], or any other
    value with the text [String(error)] gives for it. *)
Inductive thrown : Type :=
| ErrorObject (message : string)
| OtherValue (text : string).

(** [error instanceof Error ? error.message : String(error)] *)
Definition message_of (error : thrown) : string :=
  match error with ErrorObject m => m | OtherValue t => t end.

Definition getUserFriendlyError (error : thrown) : string :=
  let message := message_of error in
  if includes message "insufficient funds" || includes message "insufficient lamports" then
    "Insufficient balance. Please add more USDC or SOL."
  else if includes message "slippage" then
    "Price moved too much. Try increasing slippage tolerance."
  else if includes message "User rejected" || includes message "rejected" then
    "Transaction cancelled by user."
  else if includes message "simulation failed" then
    "Transaction validation failed. Check your inputs and balance."
  else if includes message "timeout" then
    "Transaction timeout. Please try again."
  else "Error: " ++ message.

(** ** The sizing step of [openPosition] *)

(** [new BN(x)] for a number [x], after bn.js: NaN is read as [0], a finite
    value below [2^53] in magnitude is truncated to an integer, and on any
    other value the constructor's assertion fails ([None]). *)
Definition new_BN (x : number) : option Z :=
  match x with
  | S754_nan => Some 0
  | S754_zero _ => Some 0
  | S754_infinity _ => None
  | S754_finite s m e =>
      let mag := if 0 <=? e then Zpos m * 2 ^ e else Zpos m / 2 ^ (- e) in
      if mag <? 2 ^ 53 then Some (cond_Zopp s mag) else None
  end.

(** [new BN(Math.floor(parseFloat(amount) * 1_000_000))] *)
Definition baseAmount (amount : string) : option Z :=
  new_BN (floor (mul (parseFloat amount) (JsNumber.of_Z 1000000))).

(** [new BN(Math.floor(parseFloat(leverage)))] *)
Definition leverageMultiplier (leverage : string) : option Z :=
  new_BN (floor (parseFloat leverage)).

(** [baseAmount.mul(leverageMultiplier)] *)
Definition positionSize (amount leverage : string) : option Z :=
  match baseAmount amount, leverageMultiplier leverage with
  | Some b, Some l => Some (b * l)
  | _, _ => None
  end.

(** [new BN(Math.floor(slippageTolerance * 100))] *)
Definition maxSlippageBps (slippageTolerance : number) : option Z :=
  new_BN (floor (mul slippageTolerance (JsNumber.of_Z 100))).

(** ** Handles of the wallet, the connection and the venue SDK *)

Inductive PublicKey : Type := PubKey (id : nat).
Inductive Signer : Type := SignerFn (id : nat).
Inductive Connection : Type := Conn (id : nat).
Inductive AccountInfo : Type := Account (lamports : Z).

(** What [useWallet] returns. *)
Record Wallet : Type := {
  publicKey : option PublicKey;
  signTransaction : option Signer;
  signAllTransactions : option Signer
}.

Record DriftClient : Type := {
  client_id : nat;
  client_connection : Connection;
  client_publicKey : PublicKey;
  client_signTransaction : Signer;
  client_signAllTransactions : Signer;
  client_env : string
}.

Record User : Type := {
  user_id : nat;
  user_driftClient : DriftClient;
  user_accountPublicKey : PublicKey
}.

Inductive PositionDirection : Type := LONG | SHORT.
Inductive MarketType : Type := PERP | SPOT.

Record OrderParams : Type := {
  orderType : Z;
  marketIndex : Z;
  direction : PositionDirection;
  baseAssetAmount : Z;
  marketType : MarketType;
  order_maxSlippageBps : Z
}.

(** [confirmation.value.err] *)
Record Confirmation : Type := { value_err : option string }.

Record Market : Type := { name : string; index : Z; symbol : string }.

Definition markets : list Market :=
  [ {| name := "SOL-PERP"; index := 0; symbol := "SOL" |};
    {| name := "BTC-PERP"; index := 1; symbol := "BTC" |};
    {| name := "ETH-PERP"; index := 2; symbol := "ETH" |} ].

(** [markets[i]] *)
Definition markets_at (i : Z) : option Market :=
  if i <? 0 then None else nth_error markets (Z.to_nat i).

(** ** The component's state *)

Record PanelState : Type := {
  driftClient : option DriftClient;
  user : option User;
  isInitializing : bool;
  amount : string;
  amountError : string;
  leverage : string;
  slippageTolerance : number;
  loading : bool;
  status : string;
  selectedMarket : Z
}.

(** The values given to [useState]. *)
Definition initialState : PanelState :=
  {| driftClient := None; user := None; isInitializing := false;
     amount := EmptyString; amountError := EmptyString; leverage := "5";
     slippageTolerance := of_ratio false 1 2;
     loading := false; status := EmptyString; selectedMarket := 0 |}.

(** What a render of the component closes over besides its state: the
    [termsAccepted] prop, the two hooks' values and the build setting
    [VITE_DRIFT_ENV]. *)
Record Host : Type := {
  termsAccepted : bool;
  connection : Connection;
  wallet : Wallet;
  VITE_DRIFT_ENV : option string
}.

Definition with_driftClient (c : option DriftClient) (st : PanelState) : PanelState :=
  {| driftClient := c; user := user st; isInitializing := isInitializing st;
     amount := amount st; amountError := amountError st; leverage := leverage st;
     slippageTolerance := slippageTolerance st; loading := loading st;
     status := status st; selectedMarket := selectedMarket st |}.

Definition with_user (u : option User) (st : PanelState) : PanelState :=
  {| driftClient := driftClient st; user := u; isInitializing := isInitializing st;
     amount := amount st; amountError := amountError st; leverage := leverage st;
     slippageTolerance := slippageTolerance st; loading := loading st;
     status := status st; selectedMarket := selectedMarket st |}.

Definition with_isInitializing (b : bool) (st : PanelState) : PanelState :=
  {| driftClient := driftClient st; user := user st; isInitializing := b;
     amount := amount st; amountError := amountError st; leverage := leverage st;
     slippageTolerance := slippageTolerance st; loading := loading st;
     status := status st; selectedMarket := selectedMarket st |}.

Definition with_amount (a : string) (st : PanelState) : PanelState :=
  {| driftClient := driftClient st; user := user st; isInitializing := isInitializing st;
     amount := a; amountError := amountError st; leverage := leverage st;
     slippageTolerance := slippageTolerance st; loading := loading st;
     status := status st; selectedMarket := selectedMarket st |}.

Definition with_amountError (a : string) (st : PanelState) : PanelState :=
  {| driftClient := driftClient st; user := user st; isInitializing := isInitializing st;
     amount := amount st; amountError := a; leverage := leverage st;
     slippageTolerance := slippageTolerance st; loading := loading st;
     status := status st; selectedMarket := selectedMarket st |}.

Definition with_loading (b : bool) (st : PanelState) : PanelState :=
  {| driftClient := driftClient st; user := user st; isInitializing := isInitializing st;
     amount := amount st; amountError := amountError st; leverage := leverage st;
     slippageTolerance := slippageTolerance st; loading := b;
     status := status st; selectedMarket := selectedMarket st |}.

Definition with_status (m : string) (st : PanelState) : PanelState :=
  {| driftClient := driftClient st; user := user st; isInitializing := isInitializing st;
     amount := amount st; amountError := amountError st; leverage := leverage st;
     slippageTolerance := slippageTolerance st; loading := loading st;
     status := m; selectedMarket := selectedMarket st |}.

(** ** Effectful code

    The bodies of the component's functions are written as programs over two
    families of operations.  An [effect] completes at once: a state setter, a
    log line, the construction of an SDK object.  A [call] returns a promise:
    the program either awaits it or attaches a handler to it and goes on. *)

Module Effects.

Variant effect : Type -> Type :=
| setDriftClient (c : option DriftClient) : effect unit
| setUser (u : option User) : effect unit
| setIsInitializing (b : bool) : effect unit
| setAmount (a : string) : effect unit
| setAmountError (a : string) : effect unit
| setLoading (b : bool) : effect unit
| setStatus (m : string) : effect unit
| console_error (label : option string) (err : thrown) : effect unit
| new_DriftClient (conn : Connection) (pk : PublicKey)
    (sign signAll : Signer) (env : string) : effect DriftClient
| new_User (c : DriftClient) (pk : PublicKey) : effect User.

Variant call : Type -> Type :=
| client_subscribe (c : DriftClient) : call bool
| client_getUserAccountPublicKey (c : DriftClient) : call PublicKey
| connection_getAccountInfo (conn : Connection) (pk : PublicKey) : call (option AccountInfo)
| user_subscribe (u : User) : call bool
| client_unsubscribe (c : DriftClient) : call unit
| user_unsubscribe (u : User) : call unit
| client_placeAndTakePerpOrder (c : DriftClient) (params : OrderParams) : call string
| connection_confirmTransaction (conn : Connection) (txSig commitment : string) : call Confirmation
| timer (ms : Z) : call unit.

(** How a promise settles. *)
Variant outcome (X : Type) : Type :=
| Resolved (x : X)
| Rejected (e : thrown).
Arguments Resolved {X} x.
Arguments Rejected {X} e.

(** Programs.  [Await c k] suspends until the promise of [c] settles;
    [Detach c h k] issues [c], leaves [h] to run when its promise settles
    and goes on with [k] at once (the shape of [p.catch(h)] and of
    [setTimeout]). *)
Inductive act (A : Type) : Type :=
| Ret (a : A)
| Throw (e : thrown)
| Perform {X : Type} (op : effect X) (k : X -> act A)
| Await {X : Type} (c : call X) (k : outcome X -> act A)
| Detach {X : Type} (c : call X) (h : outcome X -> act unit) (k : act A).
Arguments Ret {A} a.
Arguments Throw {A} e.
Arguments Perform {A X} op k.
Arguments Await {A X} c k.
Arguments Detach {A X} c h k.

Fixpoint bind {A B : Type} (m : act A) (f : A -> act B) : act B :=
  match m with
  | Ret a => f a
  | Throw e => Throw e
  | Perform op k => Perform op (fun x => bind (k x) f)
  | Await c k => Await c (fun r => bind (k r) f)
  | Detach c h k => Detach c h (bind k f)
  end.

(** [try { m } catch (error) { h error }] *)
Fixpoint try_catch {A : Type} (m : act A) (h : thrown -> act A) : act A :=
  match m with
  | Ret a => Ret a
  | Throw e => h e
  | Perform op k => Perform op (fun x => try_catch (k x) h)
  | Await c k => Await c (fun r => try_catch (k r) h)
  | Detach c d k => Detach c d (try_catch k h)
  end.

(** [try { m } finally { f }] *)
Fixpoint try_finally {A : Type} (m : act A) (f : act unit) : act A :=
  match m with
  | Ret a => bind f (fun _ => Ret a)
  | Throw e => bind f (fun _ => Throw e)
  | Perform op k => Perform op (fun x => try_finally (k x) f)
  | Await c k => Await c (fun r => try_finally (k r) f)
  | Detach c d k => Detach c d (try_finally k f)
  end.

Definition perform {X : Type} (op : effect X) : act X := Perform op Ret.

(** [await c]: the value the promise resolves to; a rejection is thrown. *)
Definition await {X : Type} (c : call X) : act X :=
  Await c (fun r => match r with Resolved x => Ret x | Rejected e => Throw e end).

(** [c.catch(h)] *)
Definition catch_later {X : Type} (c : call X) (h : thrown -> act unit) : act unit :=
  Detach c (fun r => match r with Resolved _ => Ret tt | Rejected e => h e end) (Ret tt).

(** [setTimeout(() => f, ms)] *)
Definition setTimeout (f : act unit) (ms : Z) : act unit :=
  Detach (timer ms) (fun _ => f) (Ret tt).

(** A value that may fail to be computed: the failure is thrown. *)
Definition or_throw {A : Type} (o : option A) (e : thrown) : act A :=
  match o with Some a => Ret a | None => Throw e end.

End Effects.

Import Effects.

Declare Scope act_scope.
Delimit Scope act_scope with act.
Notation "x <- m ;; k" := (bind m (fun x => k))
  (at level 61, m at next level, right associativity) : act_scope.
Notation "m ;; k" := (bind m (fun _ => k))
  (at level 61, right associativity) : act_scope.

(** ** The component's functions *)

Section Component.
Local Open Scope act_scope.
Local Open Scope string_scope.

(** [import.meta.env.VITE_DRIFT_ENV || 'devnet'] *)
Definition driftEnv (h : Host) : string :=
  match VITE_DRIFT_ENV h with
  | Some e => if (e =? EmptyString)%string then "devnet" else e
  | None => "devnet"
  end.

Definition initializeDrift (h : Host) : act unit :=
  match publicKey (wallet h), signTransaction (wallet h), signAllTransactions (wallet h) with
  | Some pk, Some sign, Some signAll =>
      perform (setIsInitializing true) ;;
      perform (setStatus "Initializing Drift Protocol...") ;;
      try_finally
        (try_catch
           (client <- perform (new_DriftClient (connection h) pk sign signAll (driftEnv h)) ;;
            _ <- await (client_subscribe client) ;;
            perform (setDriftClient (Some client)) ;;
            userAccountPublicKey <- await (client_getUserAccountPublicKey client) ;;
            userAccountExists <-
              await (connection_getAccountInfo (connection h) userAccountPublicKey) ;;
            match userAccountExists with
            | None =>
                perform (setStatus
                  "⚠️ Drift user account not found. Please create one at drift.trade first.") ;;
                perform (setIsInitializing false)
            | Some _ =>
                driftUser <- perform (new_User client userAccountPublicKey) ;;
                _ <- await (user_subscribe driftUser) ;;
                perform (setUser (Some driftUser)) ;;
                perform (setStatus "✅ Connected to Drift Protocol!") ;;
                setTimeout (perform (setStatus EmptyString)) 3000
            end)
           (fun error =>
              perform (console_error (Some "Error initializing Drift:") error) ;;
              perform (setStatus
                ("❌ Error: " ++
                 match error with
                 | ErrorObject m => m
                 | OtherValue _ => "Failed to initialize"
                 end))))
        (perform (setIsInitializing false))
  | _, _, _ => Ret tt
  end.

(** The effect that initializes the client when the wallet connects. *)
Definition initEffect (h : Host) (st : PanelState) : act unit :=
  match publicKey (wallet h), signTransaction (wallet h),
        signAllTransactions (wallet h), driftClient st with
  | Some _, Some _, Some _, None => initializeDrift h
  | _, _, _, _ => Ret tt
  end.

(** The function the second effect returns: the cleanup of subscriptions. *)
Definition cleanupEffect (st : PanelState) : act unit :=
  match driftClient st with
  | Some c =>
      catch_later (client_unsubscribe c)
        (fun err => perform (console_error (Some "Error unsubscribing driftClient:") err))
  | None => Ret tt
  end ;;
  match user st with
  | Some u =>
      catch_later (user_unsubscribe u)
        (fun err => perform (console_error (Some "Error unsubscribing user:") err))
  | None => Ret tt
  end.

(** The effect that cleans up when the wallet disconnects. *)
Definition disconnectEffect (h : Host) (st : PanelState) : act unit :=
  match publicKey (wallet h), driftClient st with
  | None, Some c =>
      catch_later (client_unsubscribe c) (fun err => perform (console_error None err)) ;;
      perform (setDriftClient None) ;;
      match user st with
      | Some u =>
          catch_later (user_unsubscribe u) (fun err => perform (console_error None err)) ;;
          perform (setUser None)
      | None => Ret tt
      end ;;
      perform (setStatus "Wallet disconnected")
  | _, _ => Ret tt
  end.

Definition assertion_failed : thrown := ErrorObject "Assertion failed".

Definition undefined_index : thrown :=
  ErrorObject "Cannot read properties of undefined (reading 'index')".

Definition openPosition (h : Host) (st : PanelState) (dir : PositionDirection) : act unit :=
  match driftClient st, user st, (amount st =? EmptyString)%string, termsAccepted h with
  | Some client, Some _, false, true =>
      let validation := validateAmount (amount st) in
      if negb (valid validation) then
        perform (setStatus
          ("❌ " ++ match error validation with Some e => e | None => "undefined" end))
      else
        perform (setLoading true) ;;
        let directionText := match dir with LONG => "LONG" | SHORT => "SHORT" end in
        try_finally
          (try_catch
             (size <- or_throw (positionSize (amount st) (leverage st)) assertion_failed ;;
              market <- or_throw (markets_at (selectedMarket st)) undefined_index ;;
              bps <- or_throw (maxSlippageBps (slippageTolerance st)) assertion_failed ;;
              let orderParams :=
                {| orderType := 0;
                   marketIndex := index market;
                   direction := dir;
                   baseAssetAmount := size;
                   marketType := PERP;
                   order_maxSlippageBps := bps |} in
              perform (setStatus "🔍 Validating transaction...") ;;
              perform (setStatus ("Opening " ++ directionText ++ " position...")) ;;
              txSig <- await (client_placeAndTakePerpOrder client orderParams) ;;
              perform (setStatus "⏳ Transaction submitted, waiting for confirmation...") ;;
              confirmation <-
                await (connection_confirmTransaction (connection h) txSig "confirmed") ;;
              match value_err confirmation with
              | Some _ => Throw (ErrorObject "Transaction failed on-chain")
              | None =>
                  perform (setStatus
                    ("✅ " ++ directionText ++ " position opened! TX: "
                     ++ substring 0 8 txSig ++ "...")) ;;
                  perform (setAmount EmptyString) ;;
                  perform (setAmountError EmptyString) ;;
                  setTimeout (perform (setStatus EmptyString)) 5000
              end)
             (fun error =>
                perform (console_error (Some "Error opening position:") error) ;;
                perform (setStatus ("❌ " ++ getUserFriendlyError error))))
          (perform (setLoading false))
  | _, _, _, _ =>
      perform (setStatus "Please connect wallet, enter amount, and accept terms")
  end.

End Component.

(** ** Running programs

    The component runs on one thread.  A [system] is the component's current
    state, the promises not yet settled with what is to run when they
    settle, and the record of what has been done to the outside. *)

Inductive event : Type :=
| Called {X : Type} (c : call X)
| Logged (label : option string) (err : thrown)
| Escaped (e : thrown).

Record task : Type := {
  task_answer : Type;
  task_call : call task_answer;
  task_k : outcome task_answer -> act unit
}.

Record system : Type := {
  ui : PanelState;
  pending : list task;
  trace : list event;
  created : nat
}.

Definition on_ui (f : PanelState -> PanelState) (s : system) : system :=
  {| ui := f (ui s); pending := pending s; trace := trace s; created := created s |}.

Definition record (e : event) (s : system) : system :=
  {| ui := ui s; pending := pending s; trace := trace s ++ [e]; created := created s |}.

Definition suspend {X : Type} (c : call X) (k : outcome X -> act unit) (s : system) : system :=
  {| ui := ui s;
     pending := pending s ++ [ {| task_call := c; task_k := k |} ];
     trace := trace s ++ [Called c];
     created := created s |}.

Definition allocate (s : system) : system :=
  {| ui := ui s; pending := pending s; trace := trace s; created := S (created s) |}.

(** What an [effect] does and answers. *)
Definition handle {X : Type} (op : effect X) (s : system) : X * system :=
  match op in effect X return X * system with
  | setDriftClient c => (tt, on_ui (with_driftClient c) s)
  | setUser u => (tt, on_ui (with_user u) s)
  | setIsInitializing b => (tt, on_ui (with_isInitializing b) s)
  | setAmount a => (tt, on_ui (with_amount a) s)
  | setAmountError a => (tt, on_ui (with_amountError a) s)
  | setLoading b => (tt, on_ui (with_loading b) s)
  | setStatus m => (tt, on_ui (with_status m) s)
  | console_error label err => (tt, record (Logged label err) s)
  | new_DriftClient conn pk sign signAll env =>
      ({| client_id := created s; client_connection := conn; client_publicKey := pk;
          client_signTransaction := sign; client_signAllTransactions := signAll;
          client_env := env |}, allocate s)
  | new_User c pk =>
      ({| user_id := created s; user_driftClient := c; user_accountPublicKey := pk |},
       allocate s)
  end.

(** A program runs until it ends or suspends on a promise.  An exception
    that leaves it is recorded: nothing above it catches it. *)
Fixpoint exec (p : act unit) (s : system) : system :=
  match p with
  | Ret _ => s
  | Throw e => record (Escaped e) s
  | Perform op k => let '(x, s') := handle op s in exec (k x) s'
  | Await c k => suspend c k s
  | Detach c h k => exec k (suspend c h s)
  end.

(** How the outside answers the calls made to it. *)
Definition oracle : Type := forall X : Type, call X -> outcome X.

Fixpoint remove_nth {A : Type} (i : nat) (l : list A) : list A :=
  match i, l with
  | _, [] => []
  | O, _ :: l' => l'
  | S i', a :: l' => a :: remove_nth i' l'
  end.

(** The [i]-th pending promise settles as [o] says and what waited for it
    runs. *)
Definition settle (o : oracle) (i : nat) (s : system) : option system :=
  match nth_error (pending s) i with
  | None => None
  | Some t =>
      Some (exec (task_k t (o _ (task_call t)))
              {| ui := ui s; pending := remove_nth i (pending s);
                 trace := trace s; created := created s |})
  end.

(** The newest pending promise settles. *)
Definition settle_newest (o : oracle) (s : system) : option system :=
  settle o (pred (List.length (pending s))) s.

(** [n] times, the newest pending promise settles: from the call of an
    async function on, this follows that function to its next suspension. *)
Fixpoint follow (o : oracle) (n : nat) (s : system) : option system :=
  match n with
  | O => Some s
  | S n' => match settle_newest o s with
            | Some s' => follow o n' s'
            | None => None
            end
  end.

Definition start : system :=
  {| ui := initialState; pending := []; trace := []; created := 0 |}.

(** ** Reading a trace *)

Definition is_client_subscribe (e : event) : bool :=
  match e with
  | Called (client_subscribe _) => true
  | _ => false
  end.

Definition is_subscribe (e : event) : bool :=
  match e with
  | Called (client_subscribe _) | Called (user_subscribe _) => true
  | _ => false
  end.

Definition is_escape (e : event) : bool :=
  match e with Escaped _ => true | _ => false end.

(** How many venue-client subscriptions a trace holds. *)
Definition client_subscribes (tr : list event) : nat :=
  List.length (filter is_client_subscribe tr).

(** The exceptions that left a top-level function. *)
Definition escapes (tr : list event) : list event := filter is_escape tr.

(** ** The classifier as the specification words it *)






(** ** The sizing step as the specification words it *)

(** [floor(q * 1_000_000) * l] for the exact rational [q = n / d]. *)
Definition authorized_amount (n d l : Z) : Z := (n * 1000000 / d) * l.

(** [q * 100] truncated, for the exact rational [q = n / d]. *)
Definition exact_bps (n d : Z) : Z := n * 100 / d.

(** The tenths of a percent from 0.1 to 5.0, the values of the slippage
    slider, as numerators over 10. *)
Definition slider_tenths : list Z := map Z.of_nat (seq 1 50).

Definition bps_is_exact (t : Z) : bool :=
  match maxSlippageBps (of_ratio false t 10) with
  | Some b => b =? exact_bps t 10
  | None => false
  end.

(** ** Hosts and answers used to instantiate the statements *)

Definition connected_wallet : Wallet :=
  {| publicKey := Some (PubKey 7);
     signTransaction := Some (SignerFn 1);
     signAllTransactions := Some (SignerFn 2) |}.

Definition disconnected_wallet : Wallet :=
  {| publicKey := None; signTransaction := None; signAllTransactions := None |}.

Definition host0 : Host :=
  {| termsAccepted := true; connection := Conn 0;
     wallet := connected_wallet; VITE_DRIFT_ENV := None |}.

(** The same wallet over another connection object. *)
Definition host1 : Host :=
  {| termsAccepted := true; connection := Conn 1;
     wallet := connected_wallet; VITE_DRIFT_ENV := None |}.

Definition host_disconnected : Host :=
  {| termsAccepted := true; connection := Conn 0;
     wallet := disconnected_wallet; VITE_DRIFT_ENV := None |}.

(** One answer per kind of call. *)
Record Answers : Type := {
  ans_subscribe : outcome bool;
  ans_accountPublicKey : outcome PublicKey;
  ans_accountInfo : outcome (option AccountInfo);
  ans_userSubscribe : outcome bool;
  ans_clientUnsubscribe : outcome unit;
  ans_userUnsubscribe : outcome unit;
  ans_placeOrder : outcome string;
  ans_confirm : outcome Confirmation
}.

Definition oracle_of (a : Answers) : oracle :=
  fun X c =>
    match c in call X return outcome X with
    | client_subscribe _ => ans_subscribe a
    | client_getUserAccountPublicKey _ => ans_accountPublicKey a
    | connection_getAccountInfo _ _ => ans_accountInfo a
    | user_subscribe _ => ans_userSubscribe a
    | client_unsubscribe _ => ans_clientUnsubscribe a
    | user_unsubscribe _ => ans_userUnsubscribe a
    | client_placeAndTakePerpOrder _ _ => ans_placeOrder a
    | connection_confirmTransaction _ _ _ => ans_confirm a
    | timer _ => Resolved tt
    end.

(** Every call succeeds; the account is [info]. *)
Definition all_well (info : option AccountInfo) : Answers :=
  {| ans_subscribe := Resolved true;
     ans_accountPublicKey := Resolved (PubKey 9);
     ans_accountInfo := Resolved info;
     ans_userSubscribe := Resolved true;
     ans_clientUnsubscribe := Resolved tt;
     ans_userUnsubscribe := Resolved tt;
     ans_placeOrder := Resolved "5VERYLONGSIGNATURE";
     ans_confirm := Resolved {| value_err := None |} |}.

(** Both unsubscribe calls fail. *)
Definition unsubscribes_fail : Answers :=
  {| ans_subscribe := Resolved true;
     ans_accountPublicKey := Resolved (PubKey 9);
     ans_accountInfo := Resolved None;
     ans_userSubscribe := Resolved true;
     ans_clientUnsubscribe := Rejected (ErrorObject "socket closed");
     ans_userUnsubscribe := Rejected (OtherValue "not subscribed");
     ans_placeOrder := Resolved "5VERYLONGSIGNATURE";
     ans_confirm := Resolved {| value_err := None |} |}.

(** The client [initializeDrift] constructs when [n] objects exist. *)
Definition client_of (h : Host) (pk : PublicKey) (sign signAll : Signer) (n : nat) : DriftClient :=
  {| client_id := n; client_connection := connection h; client_publicKey := pk;
     client_signTransaction := sign; client_signAllTransactions := signAll;
     client_env := driftEnv h |}.

Definition client0 : DriftClient := client_of host0 (PubKey 7) (SignerFn 1) (SignerFn 2) 0.

Definition user0 : User :=
  {| user_id := 1; user_driftClient := client0; user_accountPublicKey := PubKey 9 |}.

(** A ready session with 500 entered. *)
Definition ready : system :=
  {| ui := with_amount "500" (with_user (Some user0) (with_driftClient (Some client0) initialState));
     pending := []; trace := []; created := 2 |}.

Definition account_missing_status : string :=
  "⚠️ Drift user account not found. Please create one at drift.trade first.".

Definition preconditions_status : string :=
  "Please connect wallet, enter amount, and accept terms".

(** What a settled unsubscribe leaves in the log. *)
Definition failure_log (label : option string) (r : outcome unit) : list event :=
  match r with
  | Resolved _ => []
  | Rejected e => [Logged label e]
  end.

(** ** Two claims as the specification words them *)

(** Initialization that finds no account ends with no venue client and no
    account handle, the status message set and no further subscription. *)
Definition uninitialized_when_account_missing (h : Host) (o : oracle) (s : system) : Prop :=
  forall s', follow o 3 (exec (initializeDrift h) s) = Some s' ->
    driftClient (ui s') = None /\ user (ui s') = None
    /\ status (ui s') = account_missing_status
    /\ List.length (filter is_subscribe (trace s')) = 1%nat.

(** Of two initializations of which the second begins while the first has
    not yet stored its client, at most one subscribes a venue client. *)
Definition second_initialization_ignored (h h' : Host) (s : system) : Prop :=
  let s1 := exec (initEffect h (ui s)) s in
  let s2 := exec (initEffect h' (ui s1)) s1 in
  wallet h' = wallet h ->
  driftClient (ui s1) = None ->
  (client_subscribes (trace s2) <= 1 + client_subscribes (trace s))%nat.

(** ** Reading digits *)

(** Whether every character of [s] is a decimal digit. *)
Fixpoint all_digits (s : string) : bool :=
  match s with
  | EmptyString => true
  | String c s' => is_digit c && all_digits s'
  end.

(** The reasons [validateAmount] gives. *)
Definition validation_reasons : list string :=
  [ "Amount required"; "Scientific notation not allowed"; "Invalid number";
    "Amount must be positive"; "Minimum 1 USDC"; "Maximum 100000 USDC";
    "Maximum 2 decimal places" ]%string.

(** Where [read_digits] stops: at the end or before a character that is
    no digit. *)
Definition stops (t : string) : Prop :=
  match t with
  | EmptyString => True
  | String c _ => is_digit c = false
  end.

(** What may follow the digits for [parseFloat] to stop there with the
    integer read alone: nothing, or a character that is no digit, no
    decimal point and no exponent marker. *)
Definition ends_number (t : string) : Prop :=
  match t with
  | EmptyString => True
  | String c _ =>
      is_digit c = false /\ (c =? ".")%char = false
      /\ (c =? "e")%char = false /\ (c =? "E")%char = false
  end.

(** ** Ranges checked by evaluation *)

(** [f] holds at each of the [n] integers from [lo] on. *)
Definition holds_from (f : Z -> bool) (lo : Z) (n : positive) : bool :=
  snd (Pos.iter (fun p => (fst p + 1, snd p && f (fst p))) (lo, true) n).

(** The whole amount [k], entered as its decimal numeral, is accepted and
    sized as exactly [k * 1_000_000]. *)
Definition whole_amount_exact (k : Z) : bool :=
  valid (validateAmount (JsString.of_Z k))
  && match baseAmount (JsString.of_Z k) with
     | Some b => b =? k * 1000000
     | None => false
     end.

(** The leverage [l], as the slider gives it, is read as [l]. *)
Definition leverage_exact (l : Z) : bool :=
  match leverageMultiplier (JsString.of_Z l) with
  | Some m => m =? l
  | None => false
  end.

(** The numeral with two decimals of [c] hundredths. *)
Definition hundredths (c : Z) : string :=
  (JsString.of_Z (c / 100) ++ "."
   ++ JsString.of_Z (c mod 100 / 10) ++ JsString.of_Z (c mod 10))%string.

(** The amount of [c] hundredths is accepted and sized as the exact
    [c * 10_000] or one less. *)
Definition hundredths_within_one (c : Z) : bool :=
  valid (validateAmount (hundredths c))
  && match baseAmount (hundredths c) with
     | Some b => (c * 10000 - 1 <=? b) && (b <=? c * 10000)
     | None => false
     end.

(** The numeral with one decimal of [t] tenths. *)
Definition tenths (t : Z) : string :=
  (JsString.of_Z (t / 10) ++ "." ++ JsString.of_Z (t mod 10))%string.

(** The tolerance of [t] tenths of a percent becomes the exact
    [t * 10] basis points or one less. *)
Definition tenths_within_one (t : Z) : bool :=
  match maxSlippageBps (parseFloat (tenths t)) with
  | Some b => (t * 10 - 1 <=? b) && (b <=? t * 10)
  | None => false
  end.

(** ** More readings of a trace *)

Definition is_place_order (e : event) : bool :=
  match e with
  | Called (client_placeAndTakePerpOrder _ _) => true
  | _ => false
  end.

(** How many orders a trace holds. *)
Definition orders_placed (tr : list event) : nat :=
  List.length (filter is_place_order tr).

(** The user [initializeDrift] constructs for [client] when [n] objects
    exist. *)
Definition user_of (client : DriftClient) (upk : PublicKey) (n : nat) : User :=
  {| user_id := n; user_driftClient := client; user_accountPublicKey := upk |}.

(** The message [initializeDrift] shows for a caught value. *)
Definition initialization_error (e : thrown) : string :=
  ("❌ Error: " ++
   match e with
   | ErrorObject m => m
   | OtherValue _ => "Failed to initialize"
   end)%string.

(** ** What the render shows *)

(** The three branches of the returned markup: the prompt to connect a
    wallet, the spinner, the trade form. *)
Inductive View : Type := ConnectPrompt | Spinner | TradeForm.

Definition view (h : Host) (st : PanelState) : View :=
  match publicKey (wallet h) with
  | None => ConnectPrompt
  | Some _ => if isInitializing st then Spinner else TradeForm
  end.


(** The [disabled] attribute of the two trade buttons. *)
Definition submitDisabled (h : Host) (st : PanelState) : bool :=
  loading st
  || match driftClient st with Some _ => false | None => true end
  || (amount st =? EmptyString)%string
  || negb (termsAccepted h)
  || negb (amountError st =? EmptyString)%string.

(** [validation.error || ''] *)
Definition error_or_empty (v : Validation) : string :=
  match error v with
  | Some e => e
  | None => EmptyString
  end.

(** The [onChange] handler of the amount input. *)
Definition onAmountChange (value : string) : act unit :=
  (perform (setAmount value) ;;
   perform (setAmountError (error_or_empty (validateAmount value))))%act.

(** ** Running to the end *)

(** The newest pending promise settles, again and again, as long as more
    is pending than the [base] promises that were pending before; at most
    [fuel] times. *)
Fixpoint finish (o : oracle) (fuel : nat) (base : nat) (s : system) : system :=
  match fuel with
  | O => s
  | S fuel' =>
      if (List.length (pending s) <=? base)%nat then s
      else match settle_newest o s with
           | Some s' => finish o fuel' base s'
           | None => s
           end
  end.

(** The venue refuses the client subscription. *)
Definition subscribe_rejected : Answers :=
  {| ans_subscribe := Rejected (ErrorObject "429 Too Many Requests");
     ans_accountPublicKey := Resolved (PubKey 9);
     ans_accountInfo := Resolved None;
     ans_userSubscribe := Resolved true;
     ans_clientUnsubscribe := Resolved tt;
     ans_userUnsubscribe := Resolved tt;
     ans_placeOrder := Resolved "5VERYLONGSIGNATURE"%string;
     ans_confirm := Resolved {| value_err := None |} |}.

(** [direction === PositionDirection.LONG ? 'LONG' : 'SHORT'] *)
Definition directionText (dir : PositionDirection) : string :=
  match dir with LONG => "LONG" | SHORT => "SHORT" end.



(** A ready session whose selected market is not in the table. *)
Definition ready_without_market : system :=
  {| ui := {| driftClient := Some client0; user := Some user0; isInitializing := false;
              amount := "500"; amountError := EmptyString; leverage := "5";
              slippageTolerance := of_ratio false 1 2;
              loading := false; status := EmptyString; selectedMarket := 7 |};
     pending := []; trace := []; created := 2 |}.

(** The unsubscribe calls a teardown makes for the handles [st] holds. *)
Definition teardown_calls (st : PanelState) : list event :=
  match driftClient st with
  | Some c => [Called (client_unsubscribe c)]
  | None => []
  end
  ++ match user st with
     | Some u => [Called (user_unsubscribe u)]
     | None => []
     end.

(** ** The risk warning component *)

Module RiskWarning.

Record State : Type := { isExpanded : bool; accepted : bool }.

(** The values given to [useState]. *)
Definition initial : State := {| isExpanded := true; accepted := false |}.

(** What the user does: a click on the collapse control, or a change of
    the acceptance checkbox to [checked]. *)
Inductive Event : Type :=
| ToggleExpanded
| AcceptChange (checked : bool).

(** The state after an event and the values passed to [onAccept]: the
    collapse control sets [isExpanded] to its negation; [handleAcceptChange]
    stores the checkbox and reports it. *)
Definition handle (e : Event) (st : State) : State * list bool :=
  match e with
  | ToggleExpanded =>
      ({| isExpanded := negb (isExpanded st); accepted := accepted st |}, [])
  | AcceptChange checked =>
      ({| isExpanded := isExpanded st; accepted := checked |}, [checked])
  end.

(** A sequence of events, one per render. *)
Fixpoint run (es : list Event) (st : State) : State * list bool :=
  match es with
  | [] => (st, [])
  | e :: es' =>
      let '(st1, reported1) := handle e st in
      let '(st2, reported2) := run es' st1 in
      (st2, (reported1 ++ reported2)%list)
  end.

(** Whether the alert that the terms must be accepted is rendered. *)
Definition showsMustAccept (st : State) : bool := negb (accepted st).

Definition is_toggle (e : Event) : bool :=
  match e with ToggleExpanded => true | AcceptChange _ => false end.

End RiskWarning.

(** Whether the high-slippage warning is rendered beside the slider:
    [slippageTolerance > 2]. *)
Definition highSlippageWarning (slippageTolerance : number) : bool :=
  gt slippageTolerance (JsNumber.of_Z 2).

(** The warning for [t] tenths of a percent is rendered exactly when [t]
    is above 20. *)
Definition warning_above_two (t : Z) : bool :=
  Bool.eqb (highSlippageWarning (parseFloat (tenths t))) (20 <? t).

(** ** Proof steps for traces *)

(** Normalizes a trace built by appending and reads the escapes and the
    client subscriptions off it. *)
Ltac read_trace :=
  simpl; rewrite <- ?app_assoc;
  unfold escapes, client_subscribes;
  rewrite ?filter_app, ?length_app; simpl;
  rewrite ?app_nil_r; try reflexivity; try lia.

(** The same for the orders placed. *)
Ltac read_orders :=
  simpl; rewrite <- ?app_assoc;
  unfold escapes, orders_placed;
  rewrite ?filter_app, ?length_app; simpl;
  rewrite ?app_nil_r; try reflexivity; try lia.

(** * Properties *)

(** ** The amount validator *)

Lemma validateAmount_accepts_bounds :
  valid (validateAmount "100000") = true
  /\ error (validateAmount "0.5") = Some "Minimum 1 USDC"
  /\ error (validateAmount "100000.01") = Some "Maximum 100000 USDC"
  /\ error (validateAmount "1.234") = Some "Maximum 2 decimal places"
  /\ error (validateAmount "abc") = Some "Invalid number".
Proof. repeat split; vm_compute; reflexivity. Qed.

(** The model of [parseFloat] gives the binary64 values of the literals:
    0.1 is 0x1.999999999999ap-4, 2.01 is 0x1.0147ae147ae14p+1, the tie
    2^53 + 1 goes to the even neighbour, and what is not a literal is NaN. *)
Lemma parseFloat_values :
  parseFloat "0.1" = S754_finite false 7205759403792794 (-56)
  /\ parseFloat "2.01" = S754_finite false 4526117625507348 (-51)
  /\ parseFloat "9007199254740993" = S754_finite false 4503599627370496 1
  /\ parseFloat "  -12.5" = S754_finite true 7036874417766400 (-49)
  /\ parseFloat "-0" = S754_zero true
  /\ parseFloat "Infinity" = S754_infinity false
  /\ parseFloat "." = S754_nan
  /\ parseFloat "abc" = S754_nan.
Proof. repeat split; vm_compute; reflexivity. Qed.

Lemma parseFloat_reads_a_prefix :
  parseFloat "12abc" = parseFloat "12" /\ parseFloat "1.2.3" = parseFloat "1.2".
Proof. split; vm_compute; reflexivity. Qed.

(** C4: the claim is that every input that is not a well-formed decimal
    numeral is rejected with the non-numeric reason.  The validator reads
    the number with [parseFloat], which stops at the first character that
    cannot continue a literal, so a numeric prefix followed by letters and
    a numeral with two decimal points are both accepted; submitted, the
    first is sized as 12 units. *)
Theorem validateAmount_accepts_trailing_text :
  validateAmount "12abc" = {| valid := true; error := None |}
  /\ validateAmount "1.2.3" = {| valid := true; error := None |}
  /\ baseAmount "12abc" = Some 12000000.
Proof. repeat split; vm_compute; reflexivity. Qed.

(** ** The sizing step *)

Lemma end_to_end_sizing :
  positionSize "500" "5" = Some 2500000000
  /\ maxSlippageBps (slippageTolerance initialState) = Some 50.
Proof. split; vm_compute; reflexivity. Qed.

(** C1: the claim is that for every validated quantity and every leverage
    1..10 the base asset amount is exactly [floor(q * 1_000_000) * l].
    The quantity "2.01" passes validation; the nearest binary64 value to
    2.01 lies below it, its product with 1_000_000 rounds to a value below
    2010000, and the floor is 2009999: with leverage 10 the order is sized
    20099990 where the exact amount is 20100000.  At the boundary value
    99999.99 with leverage 10 the computed amount is the exact one. *)
Theorem positionSize_loses_a_micro_unit :
  valid (validateAmount "2.01") = true
  /\ baseAmount "2.01" = Some 2009999
  /\ positionSize "2.01" "10" = Some 20099990
  /\ authorized_amount 201 100 10 = 20100000
  /\ positionSize "99999.99" "10" = Some (authorized_amount 9999999 100 10).
Proof. repeat split; vm_compute; reflexivity. Qed.

Lemma slider_values_off_by_one :
  filter (fun t => negb (bps_is_exact t)) slider_tenths = [23; 41; 46].
Proof. vm_compute. reflexivity. Qed.

(** C5: the claim is that every tolerance with one decimal digit is
    converted to exactly the tolerance times 100, truncated.  The product
    is taken in binary64 before the floor: for 2.3 it is below 230 and the
    order carries 229 basis points.  The two values the claim names, 0.5
    and 5.0, give 50 and 500. *)
Theorem maxSlippageBps_loses_a_basis_point :
  maxSlippageBps (parseFloat "2.3") = Some 229
  /\ exact_bps 23 10 = 230
  /\ maxSlippageBps (parseFloat "0.5") = Some 50
  /\ maxSlippageBps (parseFloat "5.0") = Some 500.
Proof. repeat split; vm_compute; reflexivity. Qed.

(** ** The error classifier *)





(** C9: every message in which "rejected" occurs anywhere is reported
    as a cancellation by the user, provided none of the earlier patterns
    (insufficient funds, insufficient lamports, slippage) occurs in it. *)
Theorem getUserFriendlyError_any_rejected (error : thrown)
  (Hrejected : includes (message_of error) "rejected" = true)
  (Hfunds : includes (message_of error) "insufficient funds" = false)
  (Hlamports : includes (message_of error) "insufficient lamports" = false)
  (Hslippage : includes (message_of error) "slippage" = false) :
  getUserFriendlyError error = "Transaction cancelled by user.".
Proof.
  unfold getUserFriendlyError.
  rewrite Hfunds, Hlamports, Hslippage, Hrejected, orb_true_r. reflexivity.
Qed.

Lemma getUserFriendlyError_any_rejected_witness :
  getUserFriendlyError (ErrorObject "Transaction rejected by validator")
  = "Transaction cancelled by user.".
Proof.
  apply (getUserFriendlyError_any_rejected (ErrorObject "Transaction rejected by validator"));
    reflexivity.
Defined.

(** ** Settling promises *)

Local Open Scope list_scope.

Lemma nth_error_after {A : Type} (l r : list A) (i : nat) :
  nth_error (l ++ r) (List.length l + i) = nth_error r i.
Proof. induction l as [|a l IH]; simpl; [reflexivity | exact IH]. Qed.

Lemma remove_nth_after {A : Type} (l r : list A) (i : nat) :
  remove_nth (List.length l + i) (l ++ r) = l ++ remove_nth i r.
Proof.
  induction l as [|a l IH]; simpl.
  - reflexivity.
  - rewrite IH. reflexivity.
Qed.

Lemma settle_after (o : oracle) (l r : list task) (i : nat) (t : task) :
  nth_error r i = Some t ->
  forall u tr n,
    settle o (List.length l + i)
      {| ui := u; pending := l ++ r; trace := tr; created := n |}
    = Some (exec (task_k t (o _ (task_call t)))
              {| ui := u; pending := l ++ remove_nth i r; trace := tr; created := n |}).
Proof.
  intros Hnth u tr n. unfold settle. simpl.
  rewrite nth_error_after, Hnth, remove_nth_after. reflexivity.
Qed.

Lemma settle_first_new (o : oracle) (l r : list task) (t : task) u tr n :
  settle o (List.length l) {| ui := u; pending := l ++ t :: r; trace := tr; created := n |}
  = Some (exec (task_k t (o _ (task_call t)))
            {| ui := u; pending := l ++ r; trace := tr; created := n |}).
Proof.
  rewrite <- (Nat.add_0_r (List.length l)).
  apply (settle_after o l (t :: r) 0 t eq_refl).
Qed.

Lemma settle_second_new (o : oracle) (l r : list task) (t1 t2 : task) u tr n :
  settle o (S (List.length l))
    {| ui := u; pending := l ++ t1 :: t2 :: r; trace := tr; created := n |}
  = Some (exec (task_k t2 (o _ (task_call t2)))
            {| ui := u; pending := l ++ t1 :: r; trace := tr; created := n |}).
Proof.
  rewrite <- (Nat.add_1_r (List.length l)).
  apply (settle_after o l (t1 :: t2 :: r) 1 t2 eq_refl).
Qed.

Lemma settle_newest_suspend {X : Type} (o : oracle) (c : call X)
  (k : outcome X -> act unit) (s : system) :
  settle_newest o (suspend c k s) = Some (exec (k (o X c)) (record (Called c) s)).
Proof.
  unfold settle_newest, suspend. simpl.
  rewrite length_app. simpl. rewrite Nat.add_1_r. simpl.
  rewrite settle_first_new. simpl. rewrite app_nil_r. reflexivity.
Qed.

Lemma client_subscribes_app (l r : list event) :
  client_subscribes (l ++ r) = (client_subscribes l + client_subscribes r)%nat.
Proof. unfold client_subscribes. rewrite filter_app, length_app. reflexivity. Qed.

Lemma escapes_app (l r : list event) : escapes (l ++ r) = escapes l ++ escapes r.
Proof. apply filter_app. Qed.

(** ** Submission preconditions *)

Lemma validateAmount_reason (value : string) :
  valid (validateAmount value) = false ->
  exists reason, error (validateAmount value) = Some reason.
Proof.
  unfold validateAmount.
  repeat match goal with
         | |- context [if ?b then _ else _] => destruct b
         end; simpl; intro H; try discriminate H; eexists; reflexivity.
Qed.

Lemma openPosition_preflight (h : Host) (st : PanelState) (dir : PositionDirection) (s : system) :
  driftClient st = None \/ user st = None \/ amount st = EmptyString \/ termsAccepted h = false ->
  exec (openPosition h st dir) s = on_ui (with_status preconditions_status) s.
Proof.
  unfold openPosition. intros [H | [H | [H | H]]]; rewrite H.
  - reflexivity.
  - destruct (driftClient st); reflexivity.
  - destruct (driftClient st), (user st); reflexivity.
  - destruct (driftClient st), (user st), (amount st =? EmptyString)%string; reflexivity.
Qed.

Lemma openPosition_revalidates (h : Host) (st : PanelState) (dir : PositionDirection)
  (s : system) (reason : string) :
  error (validateAmount (amount st)) = Some reason ->
  valid (validateAmount (amount st)) = false ->
  exec (openPosition h st dir) s = on_ui (with_status ("❌ " ++ reason)%string) s
  \/ exec (openPosition h st dir) s = on_ui (with_status preconditions_status) s.
Proof.
  intros Hreason Hvalid. unfold openPosition.
  destruct (driftClient st), (user st), (amount st =? EmptyString)%string, (termsAccepted h);
    try (right; reflexivity).
  left. rewrite Hvalid, Hreason. reflexivity.
Qed.

Lemma disconnectEffect_clears (h : Host) (s : system) (c : DriftClient) :
  publicKey (wallet h) = None ->
  driftClient (ui s) = Some c ->
  driftClient (ui (exec (disconnectEffect h (ui s)) s)) = None
  /\ user (ui (exec (disconnectEffect h (ui s)) s)) = None
  /\ status (ui (exec (disconnectEffect h (ui s)) s)) = "Wallet disconnected"%string.
Proof.
  intros Hpk Hc. unfold disconnectEffect. rewrite Hpk, Hc.
  destruct (user (ui s)) as [u|] eqn:Hu; simpl; auto.
Qed.

(** C8: when a precondition of [openPosition] fails (no client or no
    account handle, an empty amount, terms not accepted, or an amount that
    fails validation again) the call only sets the status message: the
    system is otherwise unchanged, so nothing is pending and no call to
    the venue is in the trace.  After the disconnect effect has run on a
    connected session both handles are cleared, and every later call of
    [openPosition] is rejected in that way. *)
Theorem openPosition_rejects_unmet_preconditions
  (h : Host) (st : PanelState) (dir : PositionDirection) (s : system)
  (hd : Host) (sd : system) (c : DriftClient)
  (Hpre : driftClient st = None \/ user st = None \/ amount st = EmptyString
          \/ termsAccepted h = false \/ valid (validateAmount (amount st)) = false)
  (Hdisconnected : publicKey (wallet hd) = None)
  (Hsession : driftClient (ui sd) = Some c) :
  (exists m, exec (openPosition h st dir) s = on_ui (with_status m) s
     /\ (m = preconditions_status
         \/ exists reason, error (validateAmount (amount st)) = Some reason
                           /\ m = ("❌ " ++ reason)%string))
  /\ (let sd' := exec (disconnectEffect hd (ui sd)) sd in
      driftClient (ui sd') = None /\ user (ui sd') = None
      /\ forall h' dir',
           exec (openPosition h' (ui sd') dir') sd'
           = on_ui (with_status preconditions_status) sd').
Proof.
  split.
  - destruct Hpre as [H | [H | [H | [H | H]]]];
      try (exists preconditions_status; split;
           [apply openPosition_preflight; tauto | left; reflexivity]).
    destruct (validateAmount_reason _ H) as [reason Hreason].
    destruct (openPosition_revalidates h st dir s reason Hreason H) as [E | E].
    + exists ("❌ " ++ reason)%string. split; [exact E|]. right. exists reason. auto.
    + exists preconditions_status. split; [exact E|]. left. reflexivity.
  - destruct (disconnectEffect_clears hd sd c Hdisconnected Hsession) as [Hc [Hu _]].
    cbv zeta. split; [exact Hc|]. split; [exact Hu|].
    intros h' dir'. apply openPosition_preflight. left. exact Hc.
Qed.

Lemma openPosition_rejects_unmet_preconditions_witness :
  (exists m, exec (openPosition host0 (with_amount "0.5" (ui ready)) LONG) ready
             = on_ui (with_status m) ready
     /\ (m = preconditions_status
         \/ exists reason,
              error (validateAmount (amount (with_amount "0.5" (ui ready)))) = Some reason
              /\ m = ("❌ " ++ reason)%string))
  /\ (let sd' := exec (disconnectEffect host_disconnected (ui ready)) ready in
      driftClient (ui sd') = None /\ user (ui sd') = None
      /\ forall h' dir',
           exec (openPosition h' (ui sd') dir') sd'
           = on_ui (with_status preconditions_status) sd').
Proof.
  apply (openPosition_rejects_unmet_preconditions
           host0 (with_amount "0.5" (ui ready)) LONG ready
           host_disconnected ready client0).
  - right. right. right. right. vm_compute. reflexivity.
  - reflexivity.
  - reflexivity.
Defined.

(** ** Session initialization *)

(** C2, as amended: when the account lookup reports that the wallet's
    trading account does not exist, [initializeDrift] ends after its third
    await with the venue client it constructed and subscribed still stored,
    the account handle as it was, the initializing flag cleared and the
    status message that sends the user to create an account; the calls it
    made are the client subscription, the account key lookup and the
    account lookup, and nothing is left pending: no account subscription
    is made and no exception escapes. *)
Theorem initializeDrift_account_missing
  (h : Host) (o : oracle) (s : system)
  (pk upk : PublicKey) (sign signAll : Signer) (subscribed : bool)
  (Hpk : publicKey (wallet h) = Some pk)
  (Hsign : signTransaction (wallet h) = Some sign)
  (HsignAll : signAllTransactions (wallet h) = Some signAll)
  (Hsubscribe : forall c, o _ (client_subscribe c) = Resolved subscribed)
  (Hkey : forall c, o _ (client_getUserAccountPublicKey c) = Resolved upk)
  (Hinfo : o _ (connection_getAccountInfo (connection h) upk) = Resolved None) :
  let client := client_of h pk sign signAll (created s) in
  exists s',
    follow o 3 (exec (initializeDrift h) s) = Some s'
    /\ driftClient (ui s') = Some client
    /\ user (ui s') = user (ui s)
    /\ isInitializing (ui s') = false
    /\ status (ui s') = account_missing_status
    /\ pending s' = pending s
    /\ trace s' = trace s ++ [ Called (client_subscribe client);
                               Called (client_getUserAccountPublicKey client);
                               Called (connection_getAccountInfo (connection h) upk) ].
Proof.
  unfold initializeDrift. rewrite Hpk, Hsign, HsignAll.
  simpl exec. unfold follow.
  rewrite settle_newest_suspend, Hsubscribe. simpl exec.
  rewrite settle_newest_suspend, Hkey. simpl exec.
  rewrite settle_newest_suspend, Hinfo. simpl exec.
  eexists. split; [reflexivity|].
  simpl. repeat split. rewrite <- !app_assoc. reflexivity.
Qed.

Lemma initializeDrift_account_missing_witness :
  exists s',
    follow (oracle_of (all_well None)) 3 (exec (initializeDrift host0) start) = Some s'
    /\ driftClient (ui s') = Some client0
    /\ user (ui s') = None
    /\ isInitializing (ui s') = false
    /\ status (ui s') = account_missing_status
    /\ pending s' = []
    /\ trace s' = [ Called (client_subscribe client0);
                    Called (client_getUserAccountPublicKey client0);
                    Called (connection_getAccountInfo (Conn 0) (PubKey 9)) ].
Proof.
  apply (initializeDrift_account_missing host0 (oracle_of (all_well None)) start
           (PubKey 7) (PubKey 9) (SignerFn 1) (SignerFn 2) true);
    reflexivity.
Defined.

(** C2, as stated, fails: with every call succeeding and no account found,
    the run from the initial state ends with the venue client stored. *)
Lemma initializeDrift_keeps_client :
  ~ uninitialized_when_account_missing host0 (oracle_of (all_well None)) start.
Proof.
  intro H.
  destruct (H _ eq_refl) as [Hclient _].
  discriminate Hclient.
Qed.

Lemma initEffect_guarded (h : Host) (st : PanelState) (c : DriftClient) :
  driftClient st = Some c -> initEffect h st = Ret tt.
Proof.
  intro Hc. unfold initEffect. rewrite Hc.
  destruct (publicKey (wallet h)), (signTransaction (wallet h)),
    (signAllTransactions (wallet h)); reflexivity.
Qed.

(** C3, as amended: of two runs of the initialization effect for a wallet
    with all its capabilities, the second beginning after the first has
    stored its venue client, the second is stopped by the guard on the
    stored client: it changes nothing, and the two together have made
    exactly one venue-client subscription. *)
Theorem initEffect_ignored_once_client_stored
  (h h' : Host) (o : oracle) (s : system)
  (pk : PublicKey) (sign signAll : Signer) (subscribed : bool)
  (Hpk : publicKey (wallet h) = Some pk)
  (Hsign : signTransaction (wallet h) = Some sign)
  (HsignAll : signAllTransactions (wallet h) = Some signAll)
  (Hfresh : driftClient (ui s) = None)
  (Hsubscribe : forall c, o _ (client_subscribe c) = Resolved subscribed) :
  exists s1,
    settle_newest o (exec (initEffect h (ui s)) s) = Some s1
    /\ driftClient (ui s1) = Some (client_of h pk sign signAll (created s))
    /\ exec (initEffect h' (ui s1)) s1 = s1
    /\ client_subscribes (trace (exec (initEffect h' (ui s1)) s1))
       = S (client_subscribes (trace s)).
Proof.
  unfold initEffect at 1. rewrite Hpk, Hsign, HsignAll, Hfresh.
  unfold initializeDrift. rewrite Hpk, Hsign, HsignAll.
  simpl exec. rewrite settle_newest_suspend, Hsubscribe. simpl exec.
  eexists. split; [reflexivity|].
  split; [reflexivity|].
  match goal with
  | |- exec (initEffect h' (ui ?s1)) ?s1 = ?s1 /\ _ =>
      rewrite (initEffect_guarded h' (ui s1) _ eq_refl)
  end.
  split; [reflexivity|].
  simpl. rewrite !client_subscribes_app.
  change (client_subscribes [Called (client_subscribe _)]) with 1%nat.
  change (client_subscribes [Called (client_getUserAccountPublicKey _)]) with 0%nat.
  lia.
Qed.

Lemma initEffect_ignored_once_client_stored_witness :
  exists s1,
    settle_newest (oracle_of (all_well None)) (exec (initEffect host0 (ui start)) start) = Some s1
    /\ driftClient (ui s1) = Some client0
    /\ exec (initEffect host1 (ui s1)) s1 = s1
    /\ client_subscribes (trace (exec (initEffect host1 (ui s1)) s1)) = 1%nat.
Proof.
  apply (initEffect_ignored_once_client_stored host0 host1 (oracle_of (all_well None)) start
           (PubKey 7) (SignerFn 1) (SignerFn 2) true);
    reflexivity.
Defined.

(** C3, as stated, fails: the effect runs for the connected wallet and
    suspends on the client subscription; the connection object changes,
    the effect runs again for the same wallet while no client is stored
    yet, and a second client is constructed and subscribed. *)
Lemma initEffect_subscribes_twice_in_flight :
  ~ second_initialization_ignored host0 host1 start.
Proof.
  intro H. specialize (H eq_refl eq_refl).
  vm_compute in H. lia.
Qed.

(** ** Teardown *)

Lemma cleanupEffect_idle (st : PanelState) (s : system) :
  driftClient st = None -> user st = None -> exec (cleanupEffect st) s = s.
Proof. intros Hc Hu. unfold cleanupEffect. rewrite Hc, Hu. reflexivity. Qed.

Lemma escapes_failure_log (label : option string) (r : outcome unit) :
  escapes (failure_log label r) = [].
Proof. destruct r; reflexivity. Qed.

(** C7: the cleanup of a session that holds both handles issues both
    unsubscribe calls and returns without touching the state.  Whatever
    way and in whichever order the two promises settle, what runs then
    only logs each failure: the state is unchanged, nothing is left
    pending, and no exception escapes, neither from the cleanup nor from
    what follows a failed unsubscribe. *)
Theorem cleanupEffect_never_throws
  (st : PanelState) (s : system) (o1 o2 : oracle) (c : DriftClient) (u : User)
  (Hc : driftClient st = Some c) (Hu : user st = Some u) :
  let s0 := exec (cleanupEffect st) s in
  let n := List.length (pending s) in
  let client_log := failure_log (Some "Error unsubscribing driftClient:"%string) in
  let user_log := failure_log (Some "Error unsubscribing user:"%string) in
  ui s0 = ui s
  /\ trace s0 = trace s ++ [Called (client_unsubscribe c); Called (user_unsubscribe u)]
  /\ (exists s1 s2,
        settle o1 n s0 = Some s1 /\ settle o2 n s1 = Some s2
        /\ ui s2 = ui s /\ pending s2 = pending s
        /\ trace s2 = trace s0 ++ client_log (o1 _ (client_unsubscribe c))
                               ++ user_log (o2 _ (user_unsubscribe u))
        /\ escapes (trace s2) = escapes (trace s))
  /\ (exists s1 s2,
        settle o1 (S n) s0 = Some s1 /\ settle o2 n s1 = Some s2
        /\ ui s2 = ui s /\ pending s2 = pending s
        /\ trace s2 = trace s0 ++ user_log (o1 _ (user_unsubscribe u))
                               ++ client_log (o2 _ (client_unsubscribe c))
        /\ escapes (trace s2) = escapes (trace s)).
Proof.
  unfold cleanupEffect. rewrite Hc, Hu. simpl exec. unfold suspend. simpl.
  rewrite <- !app_assoc. simpl.
  split; [reflexivity|]. split; [reflexivity|]. split.
  - rewrite settle_first_new. simpl task_k. simpl task_call.
    destruct (o1 unit (client_unsubscribe c)) as [[]|e1];
      destruct (o2 unit (user_unsubscribe u)) as [[]|e2] eqn:E2;
      simpl exec; unfold record; simpl;
      (eexists; eexists; split; [reflexivity|]);
      rewrite settle_first_new; simpl task_k; simpl task_call; rewrite E2;
      simpl exec; unfold record; simpl;
      (split; [reflexivity|]); simpl;
      rewrite ?app_nil_r, <- ?app_assoc, ?escapes_app; simpl;
      rewrite ?app_nil_r; repeat split; reflexivity.
  - rewrite settle_second_new. simpl task_k. simpl task_call.
    destruct (o1 unit (user_unsubscribe u)) as [[]|e1];
      destruct (o2 unit (client_unsubscribe c)) as [[]|e2] eqn:E2;
      simpl exec; unfold record; simpl;
      (eexists; eexists; split; [reflexivity|]);
      rewrite settle_first_new; simpl task_k; simpl task_call; rewrite E2;
      simpl exec; unfold record; simpl;
      (split; [reflexivity|]); simpl;
      rewrite ?app_nil_r, <- ?app_assoc, ?escapes_app; simpl;
      rewrite ?app_nil_r; repeat split; reflexivity.
Qed.

Lemma cleanupEffect_never_throws_witness :
  let o := oracle_of unsubscribes_fail in
  let s0 := exec (cleanupEffect (ui ready)) ready in
  let client_log := failure_log (Some "Error unsubscribing driftClient:"%string) in
  let user_log := failure_log (Some "Error unsubscribing user:"%string) in
  ui s0 = ui ready
  /\ trace s0 = [Called (client_unsubscribe client0); Called (user_unsubscribe user0)]
  /\ (exists s1 s2,
        settle o 0 s0 = Some s1 /\ settle o 0 s1 = Some s2
        /\ ui s2 = ui ready /\ pending s2 = []
        /\ trace s2 = trace s0 ++ client_log (Rejected (ErrorObject "socket closed"))
                               ++ user_log (Rejected (OtherValue "not subscribed"))
        /\ escapes (trace s2) = [])
  /\ (exists s1 s2,
        settle o 1 s0 = Some s1 /\ settle o 0 s1 = Some s2
        /\ ui s2 = ui ready /\ pending s2 = []
        /\ trace s2 = trace s0 ++ user_log (Rejected (OtherValue "not subscribed"))
                               ++ client_log (Rejected (ErrorObject "socket closed"))
        /\ escapes (trace s2) = []).
Proof.
  apply (cleanupEffect_never_throws (ui ready) ready
           (oracle_of unsubscribes_fail) (oracle_of unsubscribes_fail) client0 user0);
    reflexivity.
Defined.

(** ** Submission *)



(** * Further properties *)

(** ** Strings *)

Lemma includes_char (c a : ascii) (r : string) :
  includes (String a r) (String c EmptyString)
  = (c =? a)%char || includes r (String c EmptyString).
Proof.
  simpl. destruct (ascii_dec c a) as [E|N].
  - subst. rewrite Ascii.eqb_refl. destruct r; reflexivity.
  - apply Ascii.eqb_neq in N. rewrite N. reflexivity.
Qed.

Lemma includes_char_app (c : ascii) (s t : string) :
  includes (s ++ t)%string (String c EmptyString)
  = includes s (String c EmptyString) || includes t (String c EmptyString).
Proof.
  induction s as [|a s IH].
  - simpl. destruct t; reflexivity.
  - change (String a s ++ t)%string with (String a (s ++ t)%string).
    rewrite !includes_char, IH, orb_assoc. reflexivity.
Qed.

Lemma ws3_high (a b c : ascii) :
  ws3 a b c = true -> 128 <= code a /\ 128 <= code b /\ 128 <= code c.
Proof.
  unfold ws3. cbv zeta.
  repeat rewrite ?orb_true_iff, ?andb_true_iff, ?Z.eqb_eq, ?Z.leb_le. lia.
Qed.

Lemma eqb_code (c a : ascii) : (c =? a)%char = true -> code a = code c.
Proof. intro H. apply Ascii.eqb_eq in H. subst. reflexivity. Qed.

(** White space holds no ASCII character that is not one-byte white space. *)
Lemma blank_has_no (c : ascii) :
  ws1 c = false -> code c < 128 ->
  forall (n : nat) (s : string),
    (String.length s <= n)%nat -> trimStart s = EmptyString ->
    includes s (String c EmptyString) = false.
Proof.
  intros Hws Hlow. induction n as [|n IH]; intros s Hlen Hblank.
  - destruct s; [reflexivity | simpl in Hlen; lia].
  - destruct s as [|a r1]; [reflexivity|].
    simpl in Hlen. rewrite includes_char. simpl in Hblank.
    destruct (ws1 a) eqn:Ha.
    + rewrite (IH r1) by (auto; lia). rewrite orb_false_r.
      destruct (c =? a)%char eqn:E; [|reflexivity].
      apply Ascii.eqb_eq in E. subst. congruence.
    + destruct r1 as [|b r2]; [discriminate|].
      simpl in Hlen. rewrite includes_char.
      destruct (ws2 a b) eqn:Hab.
      * rewrite (IH r2) by (auto; lia).
        unfold ws2 in Hab. apply andb_true_iff in Hab. destruct Hab as [Ea Eb].
        apply Z.eqb_eq in Ea. apply Z.eqb_eq in Eb.
        destruct (c =? a)%char eqn:E1; [apply eqb_code in E1; lia|].
        destruct (c =? b)%char eqn:E2; [apply eqb_code in E2; lia|].
        reflexivity.
      * destruct r2 as [|d r3]; [discriminate|].
        simpl in Hlen. rewrite includes_char.
        destruct (ws3 a b d) eqn:Habd; [|discriminate].
        rewrite (IH r3) by (auto; lia).
        apply ws3_high in Habd.
        destruct (c =? a)%char eqn:E1; [apply eqb_code in E1; lia|].
        destruct (c =? b)%char eqn:E2; [apply eqb_code in E2; lia|].
        destruct (c =? d)%char eqn:E3; [apply eqb_code in E3; lia|].
        reflexivity.
Qed.

Lemma includes_not_blank (c : ascii) (s : string) :
  ws1 c = false -> code c < 128 ->
  includes s (String c EmptyString) = true ->
  (s =? EmptyString)%string || trim_is_empty s = false.
Proof.
  intros Hws Hlow Hin.
  destruct s as [|a r]; [discriminate Hin|].
  simpl ((_ =? _)%string). rewrite orb_false_l.
  unfold trim_is_empty.
  destruct (trimStart (String a r)) eqn:E; [|reflexivity].
  rewrite (blank_has_no c Hws Hlow _ _ (le_n _) E) in Hin. discriminate Hin.
Qed.

(** ** More on the amount validator *)

(** X1: every input in which [e] or [E] occurs is rejected with the
    scientific-notation reason, whatever else it holds. *)
Theorem validateAmount_rejects_exponent_marker (value : string)
  (Hmarker : includes value "e" || includes value "E" = true) :
  validateAmount value = reject "Scientific notation not allowed".
Proof.
  unfold validateAmount. rewrite Hmarker.
  apply orb_true_iff in Hmarker.
  destruct Hmarker as [H | H].
  - rewrite (includes_not_blank "e"%char value eq_refl eq_refl H). reflexivity.
  - rewrite (includes_not_blank "E"%char value eq_refl eq_refl H). reflexivity.
Qed.

Lemma validateAmount_rejects_exponent_marker_witness :
  validateAmount "1e3" = reject "Scientific notation not allowed".
Proof.
  apply (validateAmount_rejects_exponent_marker "1e3"). reflexivity.
Defined.

(** X2: the result of validation is well formed: an accepted input
    carries no reason, and a rejected one carries exactly one of the seven
    fixed reasons, none of which is empty. *)
Theorem validateAmount_result_well_formed (value : string) :
  (valid (validateAmount value) = true /\ error (validateAmount value) = None)
  \/ (valid (validateAmount value) = false
      /\ exists reason, error (validateAmount value) = Some reason
                        /\ In reason validation_reasons
                        /\ reason <> EmptyString).
Proof.
  unfold validateAmount.
  repeat match goal with
         | |- context [if ?b then _ else _] => destruct b
         end;
    try (left; split; reflexivity);
    right; (split; [reflexivity|]); eexists; (split; [reflexivity|]);
    (split; [vm_compute; tauto | discriminate]).
Qed.

(** ** Text after a number *)

Lemma digit_range (a : ascii) : is_digit a = true -> 48 <= code a <= 57.
Proof.
  unfold is_digit. rewrite andb_true_iff, !Z.leb_le. tauto.
Qed.

Lemma digit_is_not (a c : ascii) :
  is_digit a = true -> is_digit c = false -> (a =? c)%char = false.
Proof.
  intros Ha Hc. destruct (a =? c)%char eqn:E; [|reflexivity].
  apply Ascii.eqb_eq in E. subst. congruence.
Qed.

Lemma append_empty (s : string) : (s ++ EmptyString)%string = s.
Proof. induction s as [|a s IH]; simpl; [|rewrite IH]; reflexivity. Qed.

Lemma prefix_other_head (c a : ascii) (p s : string) :
  c <> a -> prefix (String c p) (String a s) = false.
Proof.
  intro N. simpl. destruct (ascii_dec c a); [contradiction | reflexivity].
Qed.

Lemma trimStart_digit (a : ascii) (r : string) :
  is_digit a = true -> trimStart (String a r) = String a r.
Proof.
  intro Ha. apply digit_range in Ha. simpl.
  assert (H1 : ws1 a = false).
  { unfold ws1. rewrite orb_false_iff, andb_false_iff, !Z.leb_gt, Z.eqb_neq. lia. }
  rewrite H1. destruct r as [|b r2]; [reflexivity|].
  assert (H2 : ws2 a b = false).
  { unfold ws2. rewrite andb_false_iff, !Z.eqb_neq. lia. }
  rewrite H2. destruct r2 as [|c r3]; [reflexivity|].
  destruct (ws3 a b c) eqn:H3; [|reflexivity].
  apply ws3_high in H3. lia.
Qed.

Lemma read_digits_stops (acc cnt : Z) (t : string) :
  stops t -> read_digits acc cnt t = (acc, cnt, t).
Proof. destruct t as [|c t']; simpl; intro H; [|rewrite H]; reflexivity. Qed.

Lemma read_digits_app (ds t : string) :
  all_digits ds = true -> stops t ->
  forall acc cnt,
    read_digits acc cnt (ds ++ t)%string
    = (fst (fst (read_digits acc cnt ds)), cnt + Z.of_nat (String.length ds), t).
Proof.
  intros Hds Ht. induction ds as [|a ds IH]; intros acc cnt.
  - simpl. rewrite (read_digits_stops acc cnt t Ht), Z.add_0_r. reflexivity.
  - simpl in Hds. apply andb_true_iff in Hds. destruct Hds as [Ha Hds].
    change (String a ds ++ t)%string with (String a (ds ++ t)%string).
    cbn [read_digits]. rewrite Ha, (IH Hds).
    cbn [String.length]. rewrite Nat2Z.inj_succ. f_equal. f_equal. lia.
Qed.

Lemma after_dot_digits (ds t : string) :
  all_digits ds = true -> after_dot (ds ++ t)%string = after_dot t.
Proof.
  induction ds as [|a ds IH]; intro Hds; [reflexivity|].
  simpl in Hds. apply andb_true_iff in Hds. destruct Hds as [Ha Hds].
  change (String a ds ++ t)%string with (String a (ds ++ t)%string).
  cbn [after_dot]. rewrite (IH Hds).
  rewrite (digit_is_not a "."%char Ha eq_refl). reflexivity.
Qed.

Lemma parseFloat_digits (a : ascii) (ds t : string) :
  all_digits (String a ds) = true -> ends_number t ->
  parseFloat (String a ds ++ t)%string
  = of_ratio false (fst (fst (read_digits 0 0 (String a ds)))) 1.
Proof.
  intros Hds Ht.
  assert (Ha : is_digit a = true).
  { simpl in Hds. apply andb_true_iff in Hds. tauto. }
  assert (Hstops : stops t).
  { destruct t; simpl in *; tauto. }
  unfold parseFloat.
  change (String a ds ++ t)%string with (String a (ds ++ t)%string).
  rewrite (trimStart_digit a _ Ha).
  unfold read_sign.
  rewrite (digit_is_not a "+"%char Ha eq_refl), (digit_is_not a "-"%char Ha eq_refl).
  replace (prefix "Infinity" (String a (ds ++ t))) with false.
  2:{ symmetry. apply prefix_other_head. intro E. subst. discriminate Ha. }
  change (String a (ds ++ t)%string) with (String a ds ++ t)%string.
  rewrite (read_digits_app _ _ Hds Hstops).
  set (v := fst (fst (read_digits 0 0 (String a ds)))).
  assert (Hlen : (0 + Z.of_nat (String.length (String a ds)) + 0 =? 0) = false).
  { apply Z.eqb_neq. cbn [String.length]. lia. }
  destruct t as [|c t'].
  - rewrite Hlen. simpl read_exponent. cbv iota beta.
    change (0 - 0) with 0. simpl (0 <=? 0). cbv iota.
    rewrite Z.pow_0_r, Z.mul_1_r. reflexivity.
  - destruct Ht as [_ [Hdot [He HE]]]. rewrite Hdot. rewrite Hlen.
    unfold read_exponent. rewrite He, HE. simpl orb. cbv iota beta.
    change (0 - 0) with 0. simpl (0 <=? 0). cbv iota.
    rewrite Z.pow_0_r, Z.mul_1_r. reflexivity.
Qed.

(** X3: text after an integer is ignored.  For digits [ds] and any text
    [t] that begins with a character other than a digit, a decimal point
    or an exponent marker and holds no [e], [E] or decimal point,
    [parseFloat] reads [ds ++ t] as it reads [ds], and [validateAmount]
    gives for [ds ++ t] the verdict it gives for [ds]: accepted when [ds] is. *)
Theorem validateAmount_ignores_trailing_text (ds t : string)
  (Hdigits : all_digits ds = true)
  (Hnonempty : ds <> EmptyString)
  (Hends : ends_number t)
  (He : includes t "e" = false)
  (HE : includes t "E" = false)
  (Hdot : after_dot t = None) :
  parseFloat (ds ++ t)%string = parseFloat ds
  /\ validateAmount (ds ++ t)%string = validateAmount ds.
Proof.
  destruct ds as [|a ds]; [congruence|].
  assert (Ha : is_digit a = true).
  { simpl in Hdigits. apply andb_true_iff in Hdigits. tauto. }
  assert (Hparse : parseFloat (String a ds ++ t)%string = parseFloat (String a ds)).
  { rewrite (parseFloat_digits a ds t Hdigits Hends).
    rewrite <- (parseFloat_digits a ds EmptyString Hdigits I).
    rewrite append_empty. reflexivity. }
  split; [exact Hparse|].
  unfold validateAmount. rewrite Hparse.
  rewrite !includes_char_app, He, HE, !orb_false_r.
  unfold split_dot_1.
  rewrite (after_dot_digits _ t Hdigits), Hdot.
  pose proof (after_dot_digits (String a ds) EmptyString Hdigits) as Hnodot.
  rewrite append_empty in Hnodot. rewrite Hnodot. cbn [after_dot].
  change (String a ds ++ t)%string with (String a (ds ++ t)%string).
  unfold trim_is_empty. rewrite !(trimStart_digit a _ Ha).
  reflexivity.
Qed.

Lemma validateAmount_ignores_trailing_text_witness :
  parseFloat "250 USDC" = parseFloat "250"
  /\ validateAmount "250 USDC" = validateAmount "250".
Proof.
  apply (validateAmount_ignores_trailing_text "250" " USDC");
    try reflexivity.
  - intro H. discriminate H.
  - simpl. repeat split; reflexivity.
Defined.

(** ** Sizing over whole ranges *)

Lemma holds_from_sound (f : Z -> bool) (lo : Z) (n : positive) :
  holds_from f lo n = true ->
  forall k, lo <= k < lo + Zpos n -> f k = true.
Proof.
  unfold holds_from.
  set (step := fun p : Z * bool => (fst p + 1, snd p && f (fst p))).
  assert (Hinv : forall m,
             fst (Pos.iter step (lo, true) m) = lo + Zpos m
             /\ (snd (Pos.iter step (lo, true) m) = true ->
                 forall k, lo <= k < lo + Zpos m -> f k = true)).
  { induction m as [|m IH] using Pos.peano_ind; [|destruct IH as [IH1 IH2]].
    - simpl. split; [reflexivity|].
      intros H k Hk. replace k with lo by lia. exact H.
    - rewrite Pos.iter_succ. unfold step at 1. cbn [fst snd].
      rewrite IH1. split; [lia|].
      intros H k Hk. apply andb_true_iff in H. destruct H as [H1 H2].
      destruct (Z.eq_dec k (lo + Zpos m)) as [E|N].
      + subst k. rewrite IH1 in H2. exact H2.
      + apply IH2; [exact H1 | lia]. }
  intro H. exact (proj2 (Hinv n) H).
Qed.

Lemma whole_amounts_checked : holds_from whole_amount_exact 1 10000 = true.
Proof. vm_cast_no_check (eq_refl true). Qed.

Lemma leverages_checked : holds_from leverage_exact 1 10 = true.
Proof. vm_cast_no_check (eq_refl true). Qed.

Lemma hundredths_checked : holds_from hundredths_within_one 100 9901 = true.
Proof. vm_cast_no_check (eq_refl true). Qed.

Lemma tenths_checked : holds_from tenths_within_one 1 50 = true.
Proof. vm_cast_no_check (eq_refl true). Qed.

(** X4: every whole amount from 1 to 10000, entered as its decimal
    numeral, passes validation, and with every leverage from 1 to 10 the
    position is sized as exactly the amount times 1_000_000 times the
    leverage. *)
Theorem positionSize_exact_on_whole_amounts (k l : Z)
  (Hk : 1 <= k <= 10000) (Hl : 1 <= l <= 10) :
  valid (validateAmount (JsString.of_Z k)) = true
  /\ positionSize (JsString.of_Z k) (JsString.of_Z l) = Some (authorized_amount k 1 l).
Proof.
  pose proof (holds_from_sound _ _ _ whole_amounts_checked k ltac:(lia)) as Hwhole.
  pose proof (holds_from_sound _ _ _ leverages_checked l ltac:(lia)) as Hlev.
  unfold whole_amount_exact in Hwhole. unfold leverage_exact in Hlev.
  apply andb_true_iff in Hwhole. destruct Hwhole as [Hvalid Hbase].
  split; [exact Hvalid|].
  unfold positionSize, authorized_amount.
  destruct (baseAmount (JsString.of_Z k)) as [b|]; [|discriminate Hbase].
  destruct (leverageMultiplier (JsString.of_Z l)) as [m|]; [|discriminate Hlev].
  apply Z.eqb_eq in Hbase. apply Z.eqb_eq in Hlev. subst.
  rewrite Z.div_1_r. reflexivity.
Qed.

Lemma positionSize_exact_on_whole_amounts_witness :
  valid (validateAmount (JsString.of_Z 10000)) = true
  /\ positionSize (JsString.of_Z 10000) (JsString.of_Z 10)
     = Some (authorized_amount 10000 1 10).
Proof.
  apply (positionSize_exact_on_whole_amounts 10000 10); lia.
Defined.

(** X5: every amount with two decimals from 1.00 to 100.00 passes
    validation, and with every leverage from 1 to 10 the position is sized
    as the exact amount or as one micro-unit less times the leverage: the
    order is never larger than the amount entered allows. *)
Theorem positionSize_never_exceeds_on_hundredths (c l : Z)
  (Hc : 100 <= c <= 10000) (Hl : 1 <= l <= 10) :
  valid (validateAmount (hundredths c)) = true
  /\ exists size,
       positionSize (hundredths c) (JsString.of_Z l) = Some size
       /\ (size = authorized_amount c 100 l \/ size = authorized_amount c 100 l - l).
Proof.
  pose proof (holds_from_sound _ _ _ hundredths_checked c ltac:(lia)) as Hc'.
  pose proof (holds_from_sound _ _ _ leverages_checked l ltac:(lia)) as Hlev.
  unfold hundredths_within_one in Hc'. unfold leverage_exact in Hlev.
  apply andb_true_iff in Hc'. destruct Hc' as [Hvalid Hbase].
  split; [exact Hvalid|].
  unfold positionSize, authorized_amount.
  destruct (baseAmount (hundredths c)) as [b|]; [|discriminate Hbase].
  destruct (leverageMultiplier (JsString.of_Z l)) as [m|]; [|discriminate Hlev].
  apply Z.eqb_eq in Hlev. subst m.
  apply andb_true_iff in Hbase. destruct Hbase as [Hlo Hhi].
  apply Z.leb_le in Hlo. apply Z.leb_le in Hhi.
  replace (c * 1000000 / 100) with (c * 10000)
    by (apply Z.div_unique_exact; lia).
  exists (b * l). split; [reflexivity|].
  assert (Hb : b = c * 10000 \/ b = c * 10000 - 1) by lia.
  destruct Hb as [Hb | Hb]; subst b; [left | right]; ring.
Qed.

Lemma positionSize_never_exceeds_on_hundredths_witness :
  valid (validateAmount (hundredths 201)) = true
  /\ exists size,
       positionSize (hundredths 201) (JsString.of_Z 10) = Some size
       /\ (size = authorized_amount 201 100 10 \/ size = authorized_amount 201 100 10 - 10).
Proof.
  apply (positionSize_never_exceeds_on_hundredths 201 10); lia.
Defined.

(** X6: every tolerance with one decimal from 0.1 to 5.0 percent is
    converted to its exact number of basis points or to one less, never to
    more. *)
Theorem maxSlippageBps_never_exceeds_on_tenths (t : Z) (Ht : 1 <= t <= 50) :
  exists bps,
    maxSlippageBps (parseFloat (tenths t)) = Some bps
    /\ (bps = exact_bps t 10 \/ bps = exact_bps t 10 - 1).
Proof.
  pose proof (holds_from_sound _ _ _ tenths_checked t ltac:(lia)) as H.
  unfold tenths_within_one in H.
  destruct (maxSlippageBps (parseFloat (tenths t))) as [b|]; [|discriminate H].
  apply andb_true_iff in H. destruct H as [Hlo Hhi].
  apply Z.leb_le in Hlo. apply Z.leb_le in Hhi.
  exists b. split; [reflexivity|].
  unfold exact_bps.
  replace (t * 100 / 10) with (t * 10)
    by (apply Z.div_unique_exact; lia).
  lia.
Qed.

Lemma maxSlippageBps_never_exceeds_on_tenths_witness :
  exists bps,
    maxSlippageBps (parseFloat (tenths 23)) = Some bps
    /\ (bps = exact_bps 23 10 \/ bps = exact_bps 23 10 - 1).
Proof.
  apply (maxSlippageBps_never_exceeds_on_tenths 23). lia.
Defined.

(** ** More on session initialization *)

Lemma settle_newest_after_ui {X : Type} (o : oracle) (c : call X)
  (k : outcome X -> act unit) (f : PanelState -> PanelState) (s : system) :
  settle_newest o (on_ui f (suspend c k s))
  = Some (exec (k (o X c)) (on_ui f (record (Called c) s))).
Proof.
  unfold settle_newest, suspend, on_ui. simpl.
  rewrite length_app. simpl. rewrite Nat.add_1_r. simpl.
  rewrite settle_first_new. simpl. rewrite app_nil_r. reflexivity.
Qed.

(** X7: a wallet that lacks the public key or either signer is not
    initialized: neither [initializeDrift] nor the effect that calls it
    changes the state or calls the venue. *)
Theorem initializeDrift_needs_all_capabilities (h : Host) (st : PanelState) (s : system)
  (Hmissing : publicKey (wallet h) = None \/ signTransaction (wallet h) = None
              \/ signAllTransactions (wallet h) = None) :
  exec (initializeDrift h) s = s /\ exec (initEffect h st) s = s.
Proof.
  unfold initEffect, initializeDrift.
  destruct Hmissing as [H | [H | H]]; rewrite H;
    destruct (publicKey (wallet h)), (signTransaction (wallet h)),
      (signAllTransactions (wallet h)), (driftClient st);
    try discriminate H; split; reflexivity.
Qed.

Lemma initializeDrift_needs_all_capabilities_witness :
  exec (initializeDrift host_disconnected) start = start
  /\ exec (initEffect host_disconnected initialState) start = start.
Proof.
  apply (initializeDrift_needs_all_capabilities host_disconnected initialState start).
  left. reflexivity.
Defined.

(** X8: when every call succeeds and the account exists,
    [initializeDrift] ends after four awaits with the client and the user
    it constructed stored, the user built on that client and on the
    account key found, the initializing flag cleared and the connected
    message shown; a timer of 3000 ms is left, and when it fires the
    message is cleared and the handles stay. *)
Theorem initializeDrift_connects
  (h : Host) (o : oracle) (s : system)
  (pk upk : PublicKey) (sign signAll : Signer) (b1 b2 : bool) (info : AccountInfo)
  (Hpk : publicKey (wallet h) = Some pk)
  (Hsign : signTransaction (wallet h) = Some sign)
  (HsignAll : signAllTransactions (wallet h) = Some signAll)
  (Hsubscribe : forall c, o _ (client_subscribe c) = Resolved b1)
  (Hkey : forall c, o _ (client_getUserAccountPublicKey c) = Resolved upk)
  (Hinfo : o _ (connection_getAccountInfo (connection h) upk) = Resolved (Some info))
  (Huser : forall u, o _ (user_subscribe u) = Resolved b2) :
  let client := client_of h pk sign signAll (created s) in
  let account := user_of client upk (S (created s)) in
  exists s4 s5,
    follow o 4 (exec (initializeDrift h) s) = Some s4
    /\ driftClient (ui s4) = Some client
    /\ user (ui s4) = Some account
    /\ isInitializing (ui s4) = false
    /\ status (ui s4) = "✅ Connected to Drift Protocol!"%string
    /\ trace s4 = trace s ++ [ Called (client_subscribe client);
                               Called (client_getUserAccountPublicKey client);
                               Called (connection_getAccountInfo (connection h) upk);
                               Called (user_subscribe account);
                               Called (timer 3000) ]
    /\ settle_newest o s4 = Some s5
    /\ status (ui s5) = EmptyString
    /\ driftClient (ui s5) = Some client
    /\ user (ui s5) = Some account
    /\ pending s5 = pending s
    /\ trace s5 = trace s4.
Proof.
  unfold initializeDrift. rewrite Hpk, Hsign, HsignAll.
  simpl exec. unfold follow.
  rewrite settle_newest_suspend, Hsubscribe. simpl exec.
  rewrite settle_newest_suspend, Hkey. simpl exec.
  rewrite settle_newest_suspend, Hinfo. simpl exec.
  rewrite settle_newest_suspend, Huser. simpl exec.
  eexists. eexists. split; [reflexivity|].
  rewrite settle_newest_after_ui. simpl exec.
  repeat split; simpl; rewrite <- ?app_assoc; reflexivity.
Qed.

Lemma initializeDrift_connects_witness :
  exists s4 s5,
    follow (oracle_of (all_well (Some (Account 1)))) 4 (exec (initializeDrift host0) start)
    = Some s4
    /\ driftClient (ui s4) = Some client0
    /\ user (ui s4) = Some user0
    /\ isInitializing (ui s4) = false
    /\ status (ui s4) = "✅ Connected to Drift Protocol!"%string
    /\ trace s4 = [ Called (client_subscribe client0);
                    Called (client_getUserAccountPublicKey client0);
                    Called (connection_getAccountInfo (Conn 0) (PubKey 9));
                    Called (user_subscribe user0);
                    Called (timer 3000) ]
    /\ settle_newest (oracle_of (all_well (Some (Account 1)))) s4 = Some s5
    /\ status (ui s5) = EmptyString
    /\ driftClient (ui s5) = Some client0
    /\ user (ui s5) = Some user0
    /\ pending s5 = []
    /\ trace s5 = trace s4.
Proof.
  apply (initializeDrift_connects host0 (oracle_of (all_well (Some (Account 1)))) start
           (PubKey 7) (PubKey 9) (SignerFn 1) (SignerFn 2) true true (Account 1));
    reflexivity.
Defined.

Lemma finish_done (o : oracle) (fuel : nat) (s0 s : system) :
  pending s = pending s0 -> finish o fuel (List.length (pending s0)) s = s.
Proof.
  intro H. destruct fuel; [reflexivity|]. simpl. rewrite H, Nat.leb_refl. reflexivity.
Qed.

Lemma finish_suspend {X : Type} (o : oracle) (fuel : nat) (s0 s : system)
  (c : call X) (k : outcome X -> act unit) :
  pending s = pending s0 ->
  finish o (S fuel) (List.length (pending s0)) (suspend c k s)
  = finish o fuel (List.length (pending s0)) (exec (k (o X c)) (record (Called c) s)).
Proof.
  intro H. cbn [finish].
  replace (List.length (pending (suspend c k s)) <=? List.length (pending s0))%nat
    with false.
  - rewrite settle_newest_suspend. reflexivity.
  - symmetry. apply Nat.leb_gt. unfold suspend. simpl. rewrite length_app, H. simpl. lia.
Qed.

Lemma finish_after_ui {X : Type} (o : oracle) (fuel : nat) (s0 s : system)
  (c : call X) (k : outcome X -> act unit) (f : PanelState -> PanelState) :
  pending s = pending s0 ->
  finish o (S fuel) (List.length (pending s0)) (on_ui f (suspend c k s))
  = finish o fuel (List.length (pending s0))
      (exec (k (o X c)) (on_ui f (record (Called c) s))).
Proof.
  intro H. cbn [finish].
  replace (List.length (pending (on_ui f (suspend c k s))) <=? List.length (pending s0))%nat
    with false.
  - rewrite settle_newest_after_ui. reflexivity.
  - symmetry. apply Nat.leb_gt. unfold suspend. simpl. rewrite length_app, H. simpl. lia.
Qed.

(** X9: whatever the venue answers, a run of [initializeDrift] for a
    wallet with all its capabilities is over within five settlements.
    At its end nothing of it is pending, the initializing flag is cleared
    so that the trade form is rendered, no exception has escaped, exactly
    one venue client has been subscribed, and an account handle has been
    stored only together with the client it was built on. *)
Theorem initializeDrift_always_finishes
  (h : Host) (o : oracle) (s : system)
  (pk : PublicKey) (sign signAll : Signer)
  (Hpk : publicKey (wallet h) = Some pk)
  (Hsign : signTransaction (wallet h) = Some sign)
  (HsignAll : signAllTransactions (wallet h) = Some signAll) :
  let s' := finish o 5 (List.length (pending s)) (exec (initializeDrift h) s) in
  pending s' = pending s
  /\ isInitializing (ui s') = false
  /\ view h (ui s') = TradeForm
  /\ escapes (trace s') = escapes (trace s)
  /\ client_subscribes (trace s') = S (client_subscribes (trace s))
  /\ (user (ui s') = user (ui s)
      \/ exists u, user (ui s') = Some u
                   /\ driftClient (ui s') = Some (user_driftClient u)).
Proof.
  unfold view. rewrite Hpk.
  unfold initializeDrift. rewrite Hpk, Hsign, HsignAll.
  simpl exec. cbv zeta.
  rewrite finish_suspend by reflexivity.
  match goal with |- context [o ?T ?c] => destruct (o T c) as [b1|e] end; simpl exec.
  2:{ rewrite finish_done by reflexivity. repeat split; try read_trace. left. reflexivity. }
  rewrite finish_suspend by reflexivity.
  match goal with |- context [o ?T ?c] => destruct (o T c) as [upk|e] end; simpl exec.
  2:{ rewrite finish_done by reflexivity. repeat split; try read_trace. left. reflexivity. }
  rewrite finish_suspend by reflexivity.
  match goal with |- context [o ?T ?c] => destruct (o T c) as [[info|]|e] end; simpl exec.
  2:{ rewrite finish_done by reflexivity. repeat split; try read_trace. left. reflexivity. }
  2:{ rewrite finish_done by reflexivity. repeat split; try read_trace. left. reflexivity. }
  rewrite finish_suspend by reflexivity.
  match goal with |- context [o ?T ?c] => destruct (o T c) as [b2|e] end; simpl exec.
  2:{ rewrite finish_done by reflexivity. repeat split; try read_trace. left. reflexivity. }
  rewrite finish_after_ui by reflexivity. simpl exec.
  rewrite finish_done by reflexivity.
  repeat split; try read_trace.
  right. eexists. split; reflexivity.
Qed.

Lemma initializeDrift_always_finishes_witness :
  let s' := finish (oracle_of unsubscribes_fail) 5 0 (exec (initializeDrift host0) start) in
  pending s' = []
  /\ isInitializing (ui s') = false
  /\ view host0 (ui s') = TradeForm
  /\ escapes (trace s') = []
  /\ client_subscribes (trace s') = 1%nat
  /\ (user (ui s') = None
      \/ exists u, user (ui s') = Some u
                   /\ driftClient (ui s') = Some (user_driftClient u)).
Proof.
  apply (initializeDrift_always_finishes host0 (oracle_of unsubscribes_fail) start
           (PubKey 7) (SignerFn 1) (SignerFn 2)); reflexivity.
Defined.

Lemma in_last {A : Type} (l : list A) (a : A) : In a (l ++ [a]).
Proof. apply in_or_app. right. left. reflexivity. Qed.

(** X10: when a call of [initializeDrift] is rejected, the run ends with
    the error shown in the status and logged, the initializing flag
    cleared and no account handle stored.  When the rejected call is the
    client subscription no client is stored either; when it is a later one
    (the account key lookup, the account lookup, the account subscription)
    the client that was subscribed stays stored. *)
Theorem initializeDrift_reports_failure
  (h : Host) (o : oracle) (s : system)
  (pk : PublicKey) (sign signAll : Signer)
  (Hpk : publicKey (wallet h) = Some pk)
  (Hsign : signTransaction (wallet h) = Some sign)
  (HsignAll : signAllTransactions (wallet h) = Some signAll) :
  let client := client_of h pk sign signAll (created s) in
  let s' := finish o 5 (List.length (pending s)) (exec (initializeDrift h) s) in
  let failed (e : thrown) : Prop :=
    status (ui s') = initialization_error e
    /\ In (Logged (Some "Error initializing Drift:"%string) e) (trace s')
    /\ isInitializing (ui s') = false
    /\ user (ui s') = user (ui s)
    /\ pending s' = pending s in
  match o _ (client_subscribe client) with
  | Rejected e => failed e /\ driftClient (ui s') = driftClient (ui s)
  | Resolved _ =>
      match o _ (client_getUserAccountPublicKey client) with
      | Rejected e => failed e /\ driftClient (ui s') = Some client
      | Resolved upk =>
          match o _ (connection_getAccountInfo (connection h) upk) with
          | Rejected e => failed e /\ driftClient (ui s') = Some client
          | Resolved None => True
          | Resolved (Some _) =>
              match o _ (user_subscribe (user_of client upk (S (created s)))) with
              | Rejected e => failed e /\ driftClient (ui s') = Some client
              | Resolved _ => True
              end
          end
      end
  end.
Proof.
  unfold client_of, user_of, initialization_error.
  unfold initializeDrift. rewrite Hpk, Hsign, HsignAll.
  simpl exec. cbv zeta.
  rewrite finish_suspend by reflexivity.
  match goal with |- context [o ?T ?c] => destruct (o T c) as [b1|e] end; simpl exec.
  2:{ rewrite finish_done by reflexivity. simpl.
      repeat split; try reflexivity. apply in_last. }
  rewrite finish_suspend by reflexivity.
  match goal with |- context [o ?T ?c] => destruct (o T c) as [upk|e] end; simpl exec.
  2:{ rewrite finish_done by reflexivity. simpl.
      repeat split; try reflexivity. apply in_last. }
  rewrite finish_suspend by reflexivity.
  match goal with |- context [o ?T ?c] => destruct (o T c) as [[info|]|e] end; simpl exec.
  2:{ exact I. }
  2:{ rewrite finish_done by reflexivity. simpl.
      repeat split; try reflexivity. apply in_last. }
  rewrite finish_suspend by reflexivity.
  match goal with |- context [o ?T ?c] => destruct (o T c) as [b2|e] end; simpl exec.
  1:{ exact I. }
  rewrite finish_done by reflexivity. simpl.
  repeat split; try reflexivity. apply in_last.
Qed.

Lemma initializeDrift_reports_failure_witness :
  let s' := finish (oracle_of subscribe_rejected) 5 0 (exec (initializeDrift host0) start) in
  (status (ui s') = "❌ Error: 429 Too Many Requests"%string
   /\ In (Logged (Some "Error initializing Drift:"%string)
            (ErrorObject "429 Too Many Requests")) (trace s')
   /\ isInitializing (ui s') = false
   /\ user (ui s') = None
   /\ pending s' = [])
  /\ driftClient (ui s') = None.
Proof.
  apply (initializeDrift_reports_failure host0 (oracle_of subscribe_rejected) start
           (PubKey 7) (SignerFn 1) (SignerFn 2));
    reflexivity.
Defined.

(** ** More on submission *)




(** X12: when the sizing step of [openPosition] throws (the constructor
    of the big number refuses the amount, the leverage or the slippage, or
    no market stands at the selected index) the exception is caught before
    anything is sent: no promise is pending, no order is placed, the error
    is logged and shown as the status, the loading flag is cleared and the
    amount is unchanged. *)
Theorem openPosition_places_nothing_when_sizing_throws
  (h : Host) (st : PanelState) (dir : PositionDirection) (s : system)
  (client : DriftClient) (u : User)
  (Hclient : driftClient st = Some client)
  (Huser : user st = Some u)
  (Hamount : amount st <> EmptyString)
  (Hterms : termsAccepted h = true)
  (Hvalid : valid (validateAmount (amount st)) = true)
  (Hthrows : positionSize (amount st) (leverage st) = None
             \/ markets_at (selectedMarket st) = None
             \/ maxSlippageBps (slippageTolerance st) = None) :
  let s' := exec (openPosition h st dir) s in
  exists e,
    (e = assertion_failed \/ e = undefined_index)
    /\ trace s' = trace s ++ [Logged (Some "Error opening position:"%string) e]
    /\ status (ui s') = ("❌ " ++ getUserFriendlyError e)%string
    /\ pending s' = pending s
    /\ orders_placed (trace s') = orders_placed (trace s)
    /\ loading (ui s') = false
    /\ amount (ui s') = amount (ui s).
Proof.
  apply String.eqb_neq in Hamount.
  unfold openPosition.
  rewrite Hclient, Huser, Hamount, Hterms, Hvalid.
  cbv zeta. simpl negb. cbv iota.
  destruct (positionSize (amount st) (leverage st)) as [size|]; simpl exec.
  2:{ exists assertion_failed. repeat split; try read_orders. left. reflexivity. }
  destruct (markets_at (selectedMarket st)) as [market|]; simpl exec.
  2:{ exists undefined_index. repeat split; try read_orders. right. reflexivity. }
  destruct (maxSlippageBps (slippageTolerance st)) as [bps|]; simpl exec.
  2:{ exists assertion_failed. repeat split; try read_orders. left. reflexivity. }
  destruct Hthrows as [H | [H | H]]; discriminate H.
Qed.

Lemma openPosition_places_nothing_when_sizing_throws_witness :
  let s' := exec (openPosition host0 (ui ready_without_market) LONG) ready_without_market in
  exists e,
    (e = assertion_failed \/ e = undefined_index)
    /\ trace s' = [Logged (Some "Error opening position:"%string) e]
    /\ status (ui s') = ("❌ " ++ getUserFriendlyError e)%string
    /\ pending s' = []
    /\ orders_placed (trace s') = 0%nat
    /\ loading (ui s') = false
    /\ amount (ui s') = "500"%string.
Proof.
  apply (openPosition_places_nothing_when_sizing_throws
           host0 (ui ready_without_market) LONG ready_without_market client0 user0);
    try (vm_compute; reflexivity).
  - intro H. discriminate H.
  - right. left. reflexivity.
Defined.





(** ** More on teardown *)

(** X15: when the wallet is disconnected while a session holds both
    handles, the disconnect effect issues both unsubscribe calls, clears
    both handles and sets the status at once.  Whatever way and in
    whichever order the two promises settle afterwards, each failure is
    only logged: the cleared state stays as it is, nothing is left pending
    and no exception escapes. *)
Theorem disconnectEffect_tears_down
  (h : Host) (st : PanelState) (s : system) (o1 o2 : oracle) (c : DriftClient) (u : User)
  (Hpk : publicKey (wallet h) = None)
  (Hc : driftClient st = Some c) (Hu : user st = Some u) :
  let s0 := exec (disconnectEffect h st) s in
  let n := List.length (pending s) in
  ui s0 = with_status "Wallet disconnected" (with_user None (with_driftClient None (ui s)))
  /\ trace s0 = trace s ++ [Called (client_unsubscribe c); Called (user_unsubscribe u)]
  /\ (exists s1 s2,
        settle o1 n s0 = Some s1 /\ settle o2 n s1 = Some s2
        /\ ui s2 = ui s0 /\ pending s2 = pending s
        /\ trace s2 = trace s0 ++ failure_log None (o1 _ (client_unsubscribe c))
                               ++ failure_log None (o2 _ (user_unsubscribe u))
        /\ escapes (trace s2) = escapes (trace s))
  /\ (exists s1 s2,
        settle o1 (S n) s0 = Some s1 /\ settle o2 n s1 = Some s2
        /\ ui s2 = ui s0 /\ pending s2 = pending s
        /\ trace s2 = trace s0 ++ failure_log None (o1 _ (user_unsubscribe u))
                               ++ failure_log None (o2 _ (client_unsubscribe c))
        /\ escapes (trace s2) = escapes (trace s)).
Proof.
  unfold disconnectEffect. rewrite Hpk, Hc, Hu. simpl exec.
  unfold suspend, on_ui. simpl.
  rewrite <- !app_assoc. simpl.
  split; [reflexivity|]. split; [reflexivity|]. split.
  - rewrite settle_first_new. simpl task_k. simpl task_call.
    destruct (o1 unit (client_unsubscribe c)) as [[]|e1];
      destruct (o2 unit (user_unsubscribe u)) as [[]|e2] eqn:E2;
      simpl exec; unfold record; simpl;
      (eexists; eexists; split; [reflexivity|]);
      rewrite settle_first_new; simpl task_k; simpl task_call; rewrite E2;
      simpl exec; unfold record; simpl;
      (split; [reflexivity|]); simpl;
      rewrite ?app_nil_r, <- ?app_assoc, ?escapes_app; simpl;
      rewrite ?app_nil_r; repeat split; reflexivity.
  - rewrite settle_second_new. simpl task_k. simpl task_call.
    destruct (o1 unit (user_unsubscribe u)) as [[]|e1];
      destruct (o2 unit (client_unsubscribe c)) as [[]|e2] eqn:E2;
      simpl exec; unfold record; simpl;
      (eexists; eexists; split; [reflexivity|]);
      rewrite settle_first_new; simpl task_k; simpl task_call; rewrite E2;
      simpl exec; unfold record; simpl;
      (split; [reflexivity|]); simpl;
      rewrite ?app_nil_r, <- ?app_assoc, ?escapes_app; simpl;
      rewrite ?app_nil_r; repeat split; reflexivity.
Qed.

Lemma disconnectEffect_tears_down_witness :
  let o := oracle_of unsubscribes_fail in
  let s0 := exec (disconnectEffect host_disconnected (ui ready)) ready in
  ui s0 = with_status "Wallet disconnected"
            (with_user None (with_driftClient None (ui ready)))
  /\ trace s0 = [Called (client_unsubscribe client0); Called (user_unsubscribe user0)]
  /\ (exists s1 s2,
        settle o 0 s0 = Some s1 /\ settle o 0 s1 = Some s2
        /\ ui s2 = ui s0 /\ pending s2 = []
        /\ trace s2 = trace s0 ++ [Logged None (ErrorObject "socket closed")]
                               ++ [Logged None (OtherValue "not subscribed")]
        /\ escapes (trace s2) = [])
  /\ (exists s1 s2,
        settle o 1 s0 = Some s1 /\ settle o 0 s1 = Some s2
        /\ ui s2 = ui s0 /\ pending s2 = []
        /\ trace s2 = trace s0 ++ [Logged None (OtherValue "not subscribed")]
                               ++ [Logged None (ErrorObject "socket closed")]
        /\ escapes (trace s2) = []).
Proof.
  apply (disconnectEffect_tears_down host_disconnected (ui ready) ready
           (oracle_of unsubscribes_fail) (oracle_of unsubscribes_fail) client0 user0);
    reflexivity.
Defined.

(** X16: a teardown issues one unsubscribe call for each handle held and
    none for a handle that is absent.  The cleanup does so and leaves the
    state as it is.  The disconnect effect does so only when the wallet
    has no public key and a client is stored, and then clears the client
    and, when one is held, the account handle; with a public key or with
    no client stored it does nothing at all. *)
Theorem teardown_calls_per_handle (h : Host) (st : PanelState) (s : system) :
  (trace (exec (cleanupEffect st) s) = trace s ++ teardown_calls st
   /\ ui (exec (cleanupEffect st) s) = ui s
   /\ List.length (pending (exec (cleanupEffect st) s))
      = (List.length (pending s) + List.length (teardown_calls st))%nat)
  /\ match publicKey (wallet h), driftClient st with
     | None, Some _ =>
         trace (exec (disconnectEffect h st) s) = trace s ++ teardown_calls st
         /\ driftClient (ui (exec (disconnectEffect h st) s)) = None
         /\ user (ui (exec (disconnectEffect h st) s))
            = match user st with Some _ => None | None => user (ui s) end
         /\ status (ui (exec (disconnectEffect h st) s)) = "Wallet disconnected"%string
     | _, _ => exec (disconnectEffect h st) s = s
     end.
Proof.
  unfold cleanupEffect, disconnectEffect, teardown_calls.
  destruct (publicKey (wallet h)), (driftClient st), (user st); simpl exec;
    unfold suspend, on_ui; simpl;
    rewrite ?length_app, <- ?app_assoc, ?app_nil_r; simpl;
    repeat split; try reflexivity; lia.
Qed.

(** ** The form *)

(** X17: after the amount input changes to [value], the amount is
    [value] and the amount error is the reason validation gives for it: it
    is empty exactly when [value] is valid.  Nothing is called and nothing
    is left pending. *)
Theorem onAmountChange_keeps_error_in_step (value : string) (s : system) :
  let s' := exec (onAmountChange value) s in
  amount (ui s') = value
  /\ amountError (ui s') = error_or_empty (validateAmount value)
  /\ (amountError (ui s') = EmptyString <-> valid (validateAmount value) = true)
  /\ trace s' = trace s
  /\ pending s' = pending s.
Proof.
  cbv zeta. unfold onAmountChange. simpl exec. simpl.
  split; [reflexivity|]. split; [reflexivity|]. split; [|split; reflexivity].
  unfold error_or_empty, validateAmount.
  repeat match goal with
         | |- context [if ?b then _ else _] => destruct b
         end; simpl; split; intro H; try reflexivity; discriminate H.
Qed.

(** X18: when the trade buttons are enabled in the state the amount
    handler leaves, the preconditions [openPosition] checks hold except for
    the account handle, which the buttons do not look at: a client is
    stored, the amount is not empty and is valid, the terms are accepted
    and no submission is loading.  With no account handle stored the call
    is still rejected. *)
Theorem enabled_buttons_meet_preconditions
  (h : Host) (value : string) (s : system) (dir : PositionDirection)
  (Henabled : submitDisabled h (ui (exec (onAmountChange value) s)) = false) :
  let s' := exec (onAmountChange value) s in
  (exists client, driftClient (ui s') = Some client)
  /\ amount (ui s') <> EmptyString
  /\ valid (validateAmount (amount (ui s'))) = true
  /\ termsAccepted h = true
  /\ loading (ui s') = false
  /\ (user (ui s') = None ->
      exec (openPosition h (ui s') dir) s' = on_ui (with_status preconditions_status) s').
Proof.
  cbv zeta. revert Henabled.
  unfold onAmountChange. simpl exec. unfold submitDisabled. simpl.
  rewrite !orb_false_iff, !negb_false_iff.
  intros [[[[Hl Hc] Ha] Ht] He].
  split; [destruct (driftClient (ui s)); [eexists; reflexivity | discriminate Hc]|].
  split; [apply String.eqb_neq; exact Ha|].
  split.
  - apply String.eqb_eq in He. revert He.
    unfold error_or_empty, validateAmount.
    repeat match goal with
           | |- context [if ?b then _ else _] => destruct b
           end; simpl; intro H; try reflexivity; discriminate H.
  - split; [exact Ht|]. split; [exact Hl|].
    intro Hu. apply openPosition_preflight. right. left. exact Hu.
Qed.

Lemma enabled_buttons_meet_preconditions_witness :
  let s' := exec (onAmountChange "250") ready in
  (exists client, driftClient (ui s') = Some client)
  /\ amount (ui s') <> EmptyString
  /\ valid (validateAmount (amount (ui s'))) = true
  /\ termsAccepted host0 = true
  /\ loading (ui s') = false
  /\ (user (ui s') = None ->
      exec (openPosition host0 (ui s') LONG) s' = on_ui (with_status preconditions_status) s').
Proof.
  apply (enabled_buttons_meet_preconditions host0 "250" ready LONG).
  vm_compute. reflexivity.
Defined.

(** ** The risk warning *)

Lemma last_cons {A : Type} (l : list A) (a d : A) : last (a :: l) d = last l a.
Proof.
  revert a d. induction l as [|b l IH]; intros a d; [reflexivity|].
  change (last (a :: b :: l) d) with (last (b :: l) d).
  rewrite (IH b d), (IH b a). reflexivity.
Qed.

Lemma RiskWarning_run_from (es : list RiskWarning.Event) (st : RiskWarning.State) :
  RiskWarning.accepted (fst (RiskWarning.run es st))
  = last (snd (RiskWarning.run es st)) (RiskWarning.accepted st)
  /\ RiskWarning.isExpanded (fst (RiskWarning.run es st))
     = (if Nat.even (List.length (filter RiskWarning.is_toggle es))
        then RiskWarning.isExpanded st
        else negb (RiskWarning.isExpanded st)).
Proof.
  revert st. induction es as [|e es IH]; intro st.
  - split; reflexivity.
  - cbn [RiskWarning.run].
    destruct e as [|checked]; cbn [RiskWarning.handle];
      destruct (RiskWarning.run es _) as [st2 reported2] eqn:E;
      match type of E with
      | RiskWarning.run es ?st1 = _ =>
          destruct (IH st1) as [IHa IHe]; rewrite E in IHa, IHe
      end;
      cbn [fst snd] in *.
    + split; [exact IHa|].
      rewrite IHe. cbn [filter RiskWarning.is_toggle List.length RiskWarning.isExpanded].
      rewrite Nat.even_succ, <- Nat.negb_even.
      destruct (Nat.even _), (RiskWarning.isExpanded st); reflexivity.
    + split.
      * rewrite IHa. cbn [RiskWarning.accepted app].
        rewrite last_cons. reflexivity.
      * rewrite IHe. reflexivity.
Qed.

Lemma RiskWarning_reports_count (es : list RiskWarning.Event) (st : RiskWarning.State) :
  List.length (snd (RiskWarning.run es st))
  = List.length (filter (fun e => negb (RiskWarning.is_toggle e)) es).
Proof.
  revert st. induction es as [|e es IH]; intro st; [reflexivity|].
  cbn [RiskWarning.run].
  destruct e as [|checked]; cbn [RiskWarning.handle];
    destruct (RiskWarning.run es _) as [st2 reported2] eqn:E;
    match type of E with
    | RiskWarning.run es ?st1 = _ => specialize (IH st1); rewrite E in IH
    end;
    cbn [fst snd] in *; simpl; rewrite IH; reflexivity.
Qed.

(** X19: after any sequence of clicks on the risk warning, the accepted
    flag is the last value passed to [onAccept] ([false] when nothing was
    passed), the alert that the terms must be accepted is rendered exactly
    when that value is [false], and the panel is expanded exactly when the
    collapse control was clicked an even number of times: expanding and
    collapsing never changes the acceptance and never calls [onAccept]. *)
Theorem RiskWarning_accepted_is_last_reported (es : list RiskWarning.Event) :
  let st := fst (RiskWarning.run es RiskWarning.initial) in
  let reported := snd (RiskWarning.run es RiskWarning.initial) in
  RiskWarning.accepted st = last reported false
  /\ RiskWarning.showsMustAccept st = negb (last reported false)
  /\ RiskWarning.isExpanded st = Nat.even (List.length (filter RiskWarning.is_toggle es))
  /\ List.length reported
     = List.length (filter (fun e => negb (RiskWarning.is_toggle e)) es).
Proof.
  cbv zeta.
  destruct (RiskWarning_run_from es RiskWarning.initial) as [Ha He].
  split; [exact Ha|].
  split; [unfold RiskWarning.showsMustAccept; rewrite Ha; reflexivity|].
  split.
  - rewrite He. cbn [RiskWarning.isExpanded RiskWarning.initial].
    destruct (Nat.even _); reflexivity.
  - apply RiskWarning_reports_count.
Qed.

(** ** More on the error classifier *)

Lemma append_assoc_string (a b c : string) :
  ((a ++ b) ++ c = a ++ (b ++ c))%string.
Proof. induction a as [|x a IH]; simpl; [|rewrite IH]; reflexivity. Qed.

Lemma prefix_append (p r : string) : prefix p (p ++ r)%string = true.
Proof.
  induction p as [|x p IH]; simpl.
  - destruct r; reflexivity.
  - destruct (ascii_dec x x) as [_|N]; [exact IH | contradiction].
Qed.

Lemma prefix_split (p s : string) :
  prefix p s = true -> exists r, s = (p ++ r)%string.
Proof.
  revert s. induction p as [|x p IH]; intros s H.
  - exists s. reflexivity.
  - destruct s as [|y s]; [discriminate H|].
    simpl in H. destruct (ascii_dec x y) as [E|N]; [|discriminate H].
    subst y. destruct (IH s H) as [r Hr]. exists r. rewrite Hr. reflexivity.
Qed.

Lemma includes_split (s p : string) :
  includes s p = true <-> exists a b, s = (a ++ p ++ b)%string.
Proof.
  split.
  - induction s as [|x s IH]; intro H.
    + cbn [includes] in H. destruct (prefix p EmptyString) eqn:E; [|discriminate H].
      destruct (prefix_split _ _ E) as [r Hr]. exists EmptyString, r. exact Hr.
    + cbn [includes] in H. destruct (prefix p (String x s)) eqn:E.
      * destruct (prefix_split _ _ E) as [r Hr]. exists EmptyString, r. exact Hr.
      * destruct (IH H) as [a [b Hab]]. exists (String x a), b. rewrite Hab. reflexivity.
  - intros [a [b H]]. subst s. induction a as [|x a IH].
    + simpl append. destruct (p ++ b)%string eqn:E; cbn [includes];
        rewrite <- E, prefix_append; reflexivity.
    + change (String x a ++ p ++ b)%string with (String x (a ++ p ++ b)%string).
      cbn [includes]. rewrite IH. destruct (prefix p _); reflexivity.
Qed.

Lemma includes_within (m p q : string) :
  includes m p = true -> includes p q = true -> includes m q = true.
Proof.
  intros Hmp Hpq.
  apply includes_split in Hmp. destruct Hmp as [a [b Hm]].
  apply includes_split in Hpq. destruct Hpq as [a' [b' Hp]].
  apply includes_split. exists (a ++ a')%string, (b' ++ b)%string.
  rewrite Hm, Hp. rewrite !append_assoc_string. reflexivity.
Qed.

(** X20: in [getUserFriendlyError] the test for "User rejected" never
    decides: every message in which "User rejected" occurs is one in which
    "rejected" occurs, so the third test of the cascade is the test for
    "rejected" alone. *)
Theorem getUserFriendlyError_user_rejected_is_subsumed (error : thrown) :
  includes (message_of error) "User rejected" || includes (message_of error) "rejected"
  = includes (message_of error) "rejected".
Proof.
  destruct (includes (message_of error) "User rejected") eqn:E; [|reflexivity].
  rewrite (includes_within _ _ "rejected" E eq_refl). reflexivity.
Qed.

(** ** What acceptance means *)

(** X21: an input that [validateAmount] accepts is not empty and not
    blank, holds neither [e] nor [E], is read by [parseFloat] as a number
    that is not NaN, not below 0, not below 1 and not above 100000, and has
    at most two characters between its first decimal point and the next. *)
Theorem validateAmount_accepts_only (value : string)
  (Hvalid : valid (validateAmount value) = true) :
  value <> EmptyString
  /\ trim_is_empty value = false
  /\ includes value "e" = false
  /\ includes value "E" = false
  /\ isNaN (parseFloat value) = false
  /\ lt (parseFloat value) (JsNumber.of_Z 0) = false
  /\ lt (parseFloat value) (JsNumber.of_Z MIN_POSITION_SIZE_USDC) = false
  /\ gt (parseFloat value) (JsNumber.of_Z MAX_POSITION_SIZE_USDC) = false
  /\ length16 (split_dot_1 value) <= 2.
Proof.
  revert Hvalid. unfold validateAmount.
  destruct (value =? EmptyString)%string eqn:H1; [discriminate|].
  destruct (trim_is_empty value) eqn:H2; [discriminate|].
  destruct (includes value "e") eqn:H3; [discriminate|].
  destruct (includes value "E") eqn:H4; [discriminate|].
  cbn [orb]. cbv zeta.
  destruct (isNaN (parseFloat value)) eqn:H5; [discriminate|].
  destruct (lt (parseFloat value) (JsNumber.of_Z 0)) eqn:H6; [discriminate|].
  destruct (lt (parseFloat value) (JsNumber.of_Z MIN_POSITION_SIZE_USDC)) eqn:H7;
    [discriminate|].
  destruct (gt (parseFloat value) (JsNumber.of_Z MAX_POSITION_SIZE_USDC)) eqn:H8;
    [discriminate|].
  destruct (length16 (split_dot_1 value) >? 2) eqn:H9; [discriminate|].
  intros _. apply String.eqb_neq in H1.
  repeat split; try assumption; try reflexivity.
  rewrite Z.gtb_ltb in H9. apply Z.ltb_ge in H9. exact H9.
Qed.

Lemma validateAmount_accepts_only_witness :
  "99999.99"%string <> EmptyString
  /\ trim_is_empty "99999.99" = false
  /\ includes "99999.99" "e" = false
  /\ includes "99999.99" "E" = false
  /\ isNaN (parseFloat "99999.99") = false
  /\ lt (parseFloat "99999.99") (JsNumber.of_Z 0) = false
  /\ lt (parseFloat "99999.99") (JsNumber.of_Z MIN_POSITION_SIZE_USDC) = false
  /\ gt (parseFloat "99999.99") (JsNumber.of_Z MAX_POSITION_SIZE_USDC) = false
  /\ length16 (split_dot_1 "99999.99") <= 2.
Proof.
  apply (validateAmount_accepts_only "99999.99"). vm_compute. reflexivity.
Defined.

Lemma warnings_checked : holds_from warning_above_two 1 50 = true.
Proof. vm_cast_no_check (eq_refl true). Qed.

(** X22: for every tolerance with one decimal from 0.1 to 5.0 percent
    the high-slippage warning is rendered exactly when the tolerance is
    above 2.0. *)
Theorem highSlippageWarning_above_two (t : Z) (Ht : 1 <= t <= 50) :
  highSlippageWarning (parseFloat (tenths t)) = (20 <? t).
Proof.
  pose proof (holds_from_sound _ _ _ warnings_checked t ltac:(lia)) as H.
  unfold warning_above_two in H. apply Bool.eqb_prop in H. exact H.
Qed.

Lemma highSlippageWarning_above_two_witness :
  highSlippageWarning (parseFloat (tenths 21)) = (20 <? 21).
Proof.
  apply (highSlippageWarning_above_two 21). lia.
Defined.
